(** * Map-state reconciliation of the crash dashboard visual (src/visual.ts)

    A shallow embedding of [Visual.performUpdate] and of the helpers it
    calls, together with the properties stated about them.

    Conventions of the embedding.
    - A JavaScript number is a [number]: an integer, one of the two
      infinities, or NaN.  Finite values are integers (crash counts, FIPS
      codes); fractions and the rounding of IEEE doubles are outside the
      model, so are integers beyond the safe range.
    - A JavaScript string is a [string] holding one UTF-16 code unit per
      character, restricted to code units below 256.
    - The host and the map library are modelled by the part of their state
      that [performUpdate] reads or writes. *)

From Stdlib Require Import ZArith List Bool Lia Ascii String DecimalString Permutation.
From stdpp Require Import base option list gmap strings.

Open Scope string_scope.
Open Scope list_scope.
Open Scope Z_scope.

(** ** JavaScript numbers *)

Module Js.

Inductive number : Type :=
| Fin (z : Z)
| PosInf
| NegInf
| NaN.

#[global] Instance number_eq_dec : EqDecision number.
Proof. solve_decision. Defined.

(** [a + b] on numbers. *)
Definition numAdd (a b : number) : number :=
  match a, b with
  | NaN, _ | _, NaN => NaN
  | PosInf, NegInf | NegInf, PosInf => NaN
  | PosInf, _ | _, PosInf => PosInf
  | NegInf, _ | _, NegInf => NegInf
  | Fin x, Fin y => Fin (x + y)
  end.

(** [a <= b] on numbers: every comparison with NaN is false. *)
Definition numLe (a b : number) : bool :=
  match a, b with
  | NaN, _ | _, NaN => false
  | NegInf, _ => true
  | _, PosInf => true
  | PosInf, _ => false
  | _, NegInf => false
  | Fin x, Fin y => x <=? y
  end.

Definition isNaN (a : number) : bool :=
  match a with NaN => true | _ => false end.

(** Truthiness of a number: [0] and [NaN] are falsy. *)
Definition truthy (a : number) : bool :=
  match a with
  | NaN | Fin 0 => false
  | _ => true
  end.

(** [a || 0] on numbers. *)
Definition orZero (a : number) : number :=
  if truthy a then a else Fin 0.

(** [Number.prototype.toString] (radix 10). *)
Definition numberToString (a : number) : string :=
  match a with
  | Fin z => NilZero.string_of_int (Z.to_int z)
  | PosInf => "Infinity"
  | NegInf => "-Infinity"
  | NaN => "NaN"
  end.

(** ** JavaScript strings *)

(** WhiteSpace and LineTerminator code units below 256: TAB, LF, VT, FF, CR,
    SP and NBSP.  [String.prototype.trim] and the regular expression class
    [\s] use the same set. *)
Definition isWhiteSpace (c : ascii) : bool :=
  let n := N_of_ascii c in
  ((9 <=? n)%N && (n <=? 13)%N) || (n =? 32)%N || (n =? 160)%N.

Fixpoint trimStart (s : string) : string :=
  match s with
  | EmptyString => EmptyString
  | String c s' => if isWhiteSpace c then trimStart s' else s
  end.

Fixpoint trimEnd (s : string) : string :=
  match s with
  | EmptyString => EmptyString
  | String c s' =>
      match trimEnd s' with
      | EmptyString => if isWhiteSpace c then EmptyString else String c EmptyString
      | t => String c t
      end
  end.

(** [s.trim()] *)
Definition trim (s : string) : string := trimEnd (trimStart s).

(** [s.replace(/\s+/g, "-")]: every maximal run of white space becomes one
    dash.  [inRun] tells that the previous code unit was white space. *)
Fixpoint replaceWsRuns (inRun : bool) (s : string) : string :=
  match s with
  | EmptyString => EmptyString
  | String c s' =>
      if isWhiteSpace c
      then (if inRun then replaceWsRuns true s'
            else String "-" (replaceWsRuns true s'))
      else String c (replaceWsRuns false s')
  end.

Definition lowerChar (c : ascii) : ascii :=
  let n := N_of_ascii c in
  if ((65 <=? n)%N && (n <=? 90)%N)
     || ((192 <=? n)%N && (n <=? 222)%N && negb (n =? 215)%N)
  then ascii_of_N (n + 32) else c.

(** [s.toLowerCase()] *)
Fixpoint toLowerCase (s : string) : string :=
  match s with
  | EmptyString => EmptyString
  | String c s' => String (lowerChar c) (toLowerCase s')
  end.

Fixpoint repeatChar (n : nat) (c : ascii) : string :=
  match n with
  | O => EmptyString
  | S n' => String c (repeatChar n' c)
  end.

(** [s.padStart(target, c)] for a one-character filler. *)
Definition padStart (target : nat) (c : ascii) (s : string) : string :=
  repeatChar (target - String.length s) c +:+ s.

(** [parts.join(sep)] *)
Fixpoint join (sep : string) (parts : list string) : string :=
  match parts with
  | [] => ""
  | [p] => p
  | p :: rest => p +:+ sep +:+ join sep rest
  end.

(** ** Cell values *)

(** A [PrimitiveValue] of the host API, with the two absent values a cell
    read can produce.  [Date] cells are not modelled. *)
Inductive PrimitiveValue : Type :=
| VUndefined
| VNull
| VBool (b : bool)
| VNum (n : number)
| VStr (s : string).

#[global] Instance PrimitiveValue_eq_dec : EqDecision PrimitiveValue.
Proof. solve_decision. Defined.

(** [v == null] *)
Definition isNullish (v : PrimitiveValue) : bool :=
  match v with VUndefined | VNull => true | _ => false end.

(** [String(v)] *)
Definition toString (v : PrimitiveValue) : string :=
  match v with
  | VUndefined => "undefined"
  | VNull => "null"
  | VBool true => "true"
  | VBool false => "false"
  | VNum n => numberToString n
  | VStr s => s
  end.

(** [v ?? ""] *)
Definition orEmpty (v : PrimitiveValue) : PrimitiveValue :=
  if isNullish v then VStr "" else v.

(** [row[i]]: an index that is negative or past the end reads [undefined]. *)
Definition at_ (row : list PrimitiveValue) (i : Z) : PrimitiveValue :=
  if i <? 0 then VUndefined
  else nth (Z.to_nat i) row VUndefined.

(** [xs.findIndex(p)] *)
Fixpoint findIndexFrom {A} (p : A -> bool) (xs : list A) (i : Z) : Z :=
  match xs with
  | [] => -1
  | x :: xs' => if p x then i else findIndexFrom p xs' (i + 1)
  end.

Definition findIndex {A} (p : A -> bool) (xs : list A) : Z :=
  findIndexFrom p xs 0.

(** A [Set<string>] keeps its members in insertion order; [add] leaves a
    set that already has the member unchanged. *)
Definition setAdd (x : string) (s : list string) : list string :=
  if decide (x ∈ s) then s else s ++ [x].

End Js.
Export Js.

(** ** Data supplied by the host *)

(** A column descriptor; [roles] is the optional object that maps role
    names to booleans. *)
Record DataViewMetadataColumn : Type := {
  displayName : string;
  roles : option (gmap string bool)
}.

#[global] Instance DataViewMetadataColumn_eq_dec : EqDecision DataViewMetadataColumn.
Proof. solve_decision. Defined.

(** [c.roles?.name] read as a condition. *)
Definition hasRole (name : string) (c : DataViewMetadataColumn) : bool :=
  match roles c with
  | Some r => default false (r !! name)
  | None => false
  end.

(** The table of a data view: its column descriptors and its rows.  The
    identity and totals members of the host's table are not modelled. *)
Record DataViewTable : Type := {
  columns : option (list DataViewMetadataColumn);
  rows : option (list (list PrimitiveValue))
}.

#[global] Instance DataViewTable_eq_dec : EqDecision DataViewTable.
Proof. solve_decision. Defined.

(** [isEqual] of fast-deep-equal on two tables: structural equality, under
    which NaN equals NaN. *)
Definition isEqual (a b : DataViewTable) : bool := bool_decide (a = b).

(** A data view: its table and [metadata.objects], an object of objects of
    property values. *)
Record DataView : Type := {
  table : option DataViewTable;
  objects : option (gmap string (gmap string PrimitiveValue))
}.

Inductive FilterType : Type :=
| Advanced | Basic | Unknown | IncludeExclude | RelativeDate | TopN | Tuple
| RelativeTime | Identity | Hierarchy | HierarchyIdentity.

#[global] Instance FilterType_eq_dec : EqDecision FilterType.
Proof. solve_decision. Defined.

(** A filter target; [column] is absent on measure and hierarchy targets. *)
Record IFilterTarget : Type := {
  targetTable : string;
  column : option string
}.

(** A filter descriptor.  [target] is one target or an array of targets;
    [values] is read only on basic filters. *)
Record IFilter : Type := {
  filterType : FilterType;
  target : IFilterTarget + list IFilterTarget;
  values : option (list PrimitiveValue)
}.

Record IViewport : Type := {
  width : number;
  height : number
}.

(** The argument of [update].  [jsonFilters] is taken to be an array, as
    the cast in [performUpdate] asserts. *)
Record VisualUpdateOptions : Type := {
  dataViews : option (list DataView);
  jsonFilters : list IFilter;
  viewport : IViewport
}.

(** ** The map surface *)

(** Layers by identity.  Every remote feature layer the visual creates is a
    new object: [layerId] tells them apart, [where_] is the predicate it was
    created with. *)
Inductive Layer : Type :=
| TileLayer
| PruneCluster
| CountiesLayer
| FeatureLayer (layerId : nat) (where_ : string).

#[global] Instance Layer_eq_dec : EqDecision Layer.
Proof. solve_decision. Defined.


(** A marker registered in the cluster layer. *)
Record Marker : Type := {
  lat : number;
  lon : number;
  data_fips : string;
  data_value : number;
  weight : number
}.

(** What [performUpdate] reads and writes on one county path. *)
Record CountyPath : Type := {
  tooltip : option string;
  tooltipBinds : nat;
  fillColor : option string;
  hoverHandlers : nat;
  boundsValid : bool
}.

Inductive LogEntry : Type :=
| Warn (msg : string)
| Error (msg : string).

(** The fields of the [Visual] object, followed by the state of its
    collaborators: the layers attached to the map, the markers registered in
    the cluster layer, the last view fitted (as the keys of the counties
    whose bounds were united), the console, the pending 500 ms timers and
    the pending animation frames.  [layerSeq] numbers the feature layers
    created so far.  Stacking-order calls and [ProcessView] redraw without
    changing any of these and are not recorded. *)
Record Visual : Type := {
  countyLayers : gmap string CountyPath;
  hccsLayer : option Layer;
  hccsLayerAdded : bool;
  layerControl : option (list (string * Layer));
  settings_selectedMetric : PrimitiveValue;
  previousTableData : option DataViewTable;
  retryCount : Z;
  mapLayers : list Layer;
  markers : list Marker;
  fittedTo : option (list string);
  console : list LogEntry;
  timers : list (Z * VisualUpdateOptions);
  frames : list IViewport;
  layerSeq : nat
}.

(** [map.addLayer(l)]: a layer already on the map is not added again. *)
Definition addLayer (l : Layer) (ls : list Layer) : list Layer :=
  if decide (l ∈ ls) then ls else ls ++ [l].

(** [map.removeLayer(l)] *)
Definition removeLayer (l : Layer) (ls : list Layer) : list Layer :=
  filter (λ x, x ≠ l) ls.

(** [map.hasLayer(l)] *)
Definition hasLayer (l : Layer) (ls : list Layer) : bool :=
  bool_decide (l ∈ ls).

(** The control built by [L.control.layers(undefined, {Incidents, Counties})]. *)
Definition baseControl : list (string * Layer) :=
  [("Incidents", PruneCluster); ("Counties", CountiesLayer)].

(** ** Classification / colour mapper *)

#[global] Instance number_inhabited : Inhabited number := populate NaN.

(** [getColor]: the fill colour of a county. *)
Definition getColor (val : number) : string :=
  let breaks := [Fin 0; Fin 10; Fin 50; Fin 100; Fin 200; Fin 500; Fin 1000] in
  if numLe val (breaks !!! 0%nat) then "rgba(0,0,0,0)" else
  if numLe val (breaks !!! 1%nat) then "#ffffcc" else
  if numLe val (breaks !!! 2%nat) then "#ffeda0" else
  if numLe val (breaks !!! 3%nat) then "#feb24c" else
  if numLe val (breaks !!! 4%nat) then "#fd8d3c" else
  if numLe val (breaks !!! 5%nat) then "#f03b20" else
  if numLe val (breaks !!! 6%nat) then "#bd0026" else
  "#800026".

(** [getChoro]: the colour of a cluster icon. *)
Definition getChoro (val : number) : string :=
  let breaks := [Fin 0; Fin 10; Fin 50; Fin 100; Fin 200; Fin 500; Fin 1000] in
  if numLe val (breaks !!! 0%nat) then "rgba(0,0,0,0)" else
  if numLe val (breaks !!! 1%nat) then "#4575b4" else
  if numLe val (breaks !!! 2%nat) then "#74add1" else
  if numLe val (breaks !!! 3%nat) then "#abd9e9" else
  if numLe val (breaks !!! 4%nat) then "#fdae61" else
  if numLe val (breaks !!! 5%nat) then "#f46d43" else
  if numLe val (breaks !!! 6%nat) then "#d73027" else
  "#a50026".

(** The earlier revision of the visual (the marker-cluster variant) has the
    same ramp over the breakpoints [0, 50, 100, 500, 1000, 5000, 10000]. *)
Module MarkerClusterVariant.

Definition breaks : list number :=
  [Fin 0; Fin 50; Fin 100; Fin 500; Fin 1000; Fin 5000; Fin 10000].

Definition getColor (val : number) : string :=
  if numLe val (breaks !!! 0%nat) then "rgba(0,0,0,0)" else
  if numLe val (breaks !!! 1%nat) then "#ffffcc" else
  if numLe val (breaks !!! 2%nat) then "#ffeda0" else
  if numLe val (breaks !!! 3%nat) then "#feb24c" else
  if numLe val (breaks !!! 4%nat) then "#fd8d3c" else
  if numLe val (breaks !!! 5%nat) then "#f03b20" else
  if numLe val (breaks !!! 6%nat) then "#bd0026" else
  "#800026".

End MarkerClusterVariant.

(** The shape the three ramps share: the class of [val] is the index of the
    first breakpoint, in ascending order, with [val <= b[i]], and the number
    of breakpoints when there is none.  Class 0 is the transparent class;
    with seven breakpoints the classes are 0 to 7. *)
Fixpoint classOfFrom (bs : list number) (val : number) (i : nat) : nat :=
  match bs with
  | [] => i
  | b :: bs' => if numLe val b then i else classOfFrom bs' val (S i)
  end.

Definition classOf (bs : list number) (val : number) : nat :=
  classOfFrom bs val 0.

Definition getColor_breaks : list number :=
  [Fin 0; Fin 10; Fin 50; Fin 100; Fin 200; Fin 500; Fin 1000].

Definition getColor_palette : list string :=
  ["rgba(0,0,0,0)"; "#ffffcc"; "#ffeda0"; "#feb24c"; "#fd8d3c"; "#f03b20";
   "#bd0026"; "#800026"].

Definition getChoro_palette : list string :=
  ["rgba(0,0,0,0)"; "#4575b4"; "#74add1"; "#abd9e9"; "#fdae61"; "#f46d43";
   "#d73027"; "#a50026"].

(** ** Query builder *)

Definition VALID_ROUTES : list string :=
  ["I-26"; "I-40"; "I-77"; "I-85"; "I-95"].

(** [raw.trim().replace(/\s+/g, "-")] *)
Definition normalize (raw : string) : string :=
  replaceWsRuns false (trim raw).

(** [Array.from(selectedInterstates).map(...).filter(norm => VALID_ROUTES.has(norm))] *)
Definition safeInterstates (selectedInterstates : list string) : list string :=
  filter (λ norm, norm ∈ VALID_ROUTES) (map normalize selectedInterstates).

Definition quote (r : string) : string := "'" +:+ r +:+ "'".

(** The [where] predicate handed to the feature service. *)
Definition whereOf (selectedInterstates : list string) : string :=
  let safe := safeInterstates selectedInterstates in
  if (0 <? Z.of_nat (length safe))
  then "RouteName IN (" +:+ join ", " (map quote safe) +:+ ")"
  else "1=0".

(** ** Category selection *)

(** [basicFilter.values?.forEach(val => { if (val != null) add(String(val).trim()) })] *)
Definition addValues (vals : option (list PrimitiveValue))
    (selected : list string) : list string :=
  fold_left
    (λ sel val, if isNullish val then sel else setAdd (trim (toString val)) sel)
    (default [] vals) selected.

(** [Array.isArray(target) ? target : [target]] *)
Definition targetsOf (f : IFilter) : list IFilterTarget :=
  match target f with
  | inl t => [t]
  | inr ts => ts
  end.

(** [target.column?.toLowerCase?.() === "interstate"] *)
Definition targetsInterstate (t : IFilterTarget) : bool :=
  match column t with
  | Some c => bool_decide (toLowerCase c = "interstate")
  | None => false
  end.

(** The loop over [jsonFilters]. *)
Definition selectedFromFilters (jsonFilters : list IFilter) : list string :=
  fold_left
    (λ sel filter,
       if decide (filterType filter = Basic)
       then fold_left
              (λ sel' t, if targetsInterstate t
                         then addValues (values filter) sel' else sel')
              (targetsOf filter) sel
       else sel)
    jsonFilters [].

(** [row[interstateIdx]?.toString()?.trim()], with [None] for [undefined]. *)
Definition rowInterstate (row : list PrimitiveValue) (interstateIdx : Z)
  : option string :=
  let cell := at_ row interstateIdx in
  if isNullish cell then None else Some (trim (toString cell)).

(** The fallback loop over the rows: [if (val) add(val)]. *)
Definition selectedFromRows (rows : list (list PrimitiveValue))
    (interstateIdx : Z) (selected : list string) : list string :=
  fold_left
    (λ sel row,
       match rowInterstate row interstateIdx with
       | Some val => if decide (val = "") then sel else setAdd val sel
       | None => sel
       end)
    rows selected.

(** [selectedInterstates] as it stands after both loops. *)
Definition selectedInterstates (jsonFilters : list IFilter)
    (rows : list (list PrimitiveValue)) (interstateIdx : Z) : list string :=
  let selected := selectedFromFilters jsonFilters in
  if (Z.of_nat (length selected) =? 0) && (0 <=? interstateIdx)
  then selectedFromRows rows interstateIdx selected
  else selected.

(** ** The reconciliation cycle *)

(** A visual with its pending timers replaced. *)
Definition withTimers (ts : list (Z * VisualUpdateOptions)) (this : Visual) : Visual :=
  {| countyLayers := countyLayers this;
     hccsLayer := hccsLayer this;
     hccsLayerAdded := hccsLayerAdded this;
     layerControl := layerControl this;
     settings_selectedMetric := settings_selectedMetric this;
     previousTableData := previousTableData this;
     retryCount := retryCount this;
     mapLayers := mapLayers this;
     markers := markers this;
     fittedTo := fittedTo this;
     console := console this;
     timers := ts;
     frames := frames this;
     layerSeq := layerSeq this |}.

Section Reconciliation.

(** [StringToNumber] is the numeric value of a string cell under unary [+]
    and [Number(...)]; the theorems hold whatever it is.  [fipsToCounty] is
    the county-name table of [src/data/fipsToCounty], which is reference
    data. *)
Variable StringToNumber : string -> number.
Variable fipsToCounty : number -> option string.

(** [+v] *)
Definition toNumber (v : PrimitiveValue) : number :=
  match v with
  | VUndefined => NaN
  | VNull => Fin 0
  | VBool true => Fin 1
  | VBool false => Fin 0
  | VNum n => n
  | VStr s => StringToNumber s
  end.

(** [String(r[fipsIdx] ?? "")] *)
Definition regionKey (r : list PrimitiveValue) (fipsIdx : Z) : string :=
  toString (orEmpty (at_ r fipsIdx)).

(** [+r[crashIdx] || 0] *)
Definition rowWeight (r : list PrimitiveValue) (crashIdx : Z) : number :=
  orZero (toNumber (at_ r crashIdx)).

(** [crashByFIPS[f] || 0]; an absent entry reads [undefined]. *)
Definition totalOrZero (crashByFIPS : gmap string number) (f : string) : number :=
  match crashByFIPS !! f with
  | Some n => orZero n
  | None => Fin 0
  end.

(** The aggregation loop: [crashByFIPS[f] = (crashByFIPS[f] || 0) + v].
    Keys that name a member of [Object.prototype] are outside the model. *)
Definition aggregateRow (fipsIdx crashIdx : Z) (crashByFIPS : gmap string number)
    (r : list PrimitiveValue) : gmap string number :=
  let f := regionKey r fipsIdx in
  let v := rowWeight r crashIdx in
  <[f := numAdd (totalOrZero crashByFIPS f) v]> crashByFIPS.

Definition crashByFIPS (rows : list (list PrimitiveValue)) (fipsIdx crashIdx : Z)
  : gmap string number :=
  fold_left (aggregateRow fipsIdx crashIdx) rows ∅.


Definition LF : string := String (ascii_of_nat 10) "".

(** The tooltip text of a county. *)
Definition countyTip (f : string) (val : number) : string :=
  let name := match fipsToCounty (StringToNumber f) with
              | Some n => if decide (n = "") then "Unknown County" else n
              | None => "Unknown County"
              end in
  "<strong>" +:+ name +:+ "</strong><br/>" +:+ LF
  +:+ "                 <strong>Total:</strong> " +:+ numberToString val.

(** The body of the choropleth loop for one county: the tooltip is bound
    again only when its text differs, the fill is always applied, and two
    hover handlers are added. *)
Definition restyleCounty (totals : gmap string number) (f : string)
    (layer : CountyPath) : CountyPath :=
  let val := totalOrZero totals f in
  let tip := countyTip f val in
  let rebind := negb (bool_decide (tooltip layer = Some tip)) in
  {| tooltip := Some tip;
     tooltipBinds := if rebind then S (tooltipBinds layer) else tooltipBinds layer;
     fillColor := Some (getColor val);
     hoverHandlers := S (S (hoverHandlers layer));
     boundsValid := boundsValid layer |}.

(** [String(r[fipsIdx] ?? "").padStart(5, "0")] *)
Definition paddedKey (r : list PrimitiveValue) (fipsIdx : Z) : string :=
  padStart 5 "0" (regionKey r fipsIdx).

Definition filteredFIPS (rows : list (list PrimitiveValue)) (fipsIdx : Z)
  : list string :=
  fold_left
    (λ acc r, let fips := paddedKey r fipsIdx in
              if decide (fips = "") then acc else setAdd fips acc)
    rows [].

(** The keys of [filteredFIPS] that have a county layer with valid bounds:
    one entry per element pushed on [countyBounds]. *)
Definition countyBounds (layers : gmap string CountyPath)
    (filtered : list string) : list string :=
  List.filter (λ fips, match layers !! fips with
                        | Some layer => boundsValid layer
                        | None => false
                        end) filtered.

(** The marker loop: a row whose latitude or longitude is NaN is skipped. *)
Definition markerOf (latIdx lonIdx crashIdx fipsIdx : Z)
    (r : list PrimitiveValue) : option Marker :=
  let lat := toNumber (at_ r latIdx) in
  let lon := toNumber (at_ r lonIdx) in
  if isNaN lat || isNaN lon then None
  else
    let v := rowWeight r crashIdx in
    let f := paddedKey r fipsIdx in
    Some {| lat := lat; lon := lon; data_fips := f; data_value := v; weight := v |}.

Definition buildMarkers (rows : list (list PrimitiveValue))
    (latIdx lonIdx crashIdx fipsIdx : Z) : list Marker :=
  omap (markerOf latIdx lonIdx crashIdx fipsIdx) rows.

(** Truthiness of a property value. *)
Definition truthyValue (v : PrimitiveValue) : bool :=
  match v with
  | VUndefined | VNull => false
  | VBool b => b
  | VNum n => truthy n
  | VStr s => negb (bool_decide (s = ""))
  end.

(** [objs?.dataSelector?.selectedMetric || "crashes"] *)
Definition selectedMetricOf (dv : DataView) : PrimitiveValue :=
  let selectedMetric :=
    match objects dv with
    | Some objs =>
        match objs !! "dataSelector" with
        | Some dataSelector => default VUndefined (dataSelector !! "selectedMetric")
        | None => VUndefined
        end
    | None => VUndefined
    end in
  if truthyValue selectedMetric then selectedMetric else VStr "crashes".

(** [this.previousTableData && isEqual(this.previousTableData, dv.table)] *)
Definition unchanged (previous : option DataViewTable) (tbl : DataViewTable) : bool :=
  match previous with
  | Some p => isEqual p tbl
  | None => false
  end.

(** "Rebuild hccsLayer safely": when the current remote layer is on the
    map it is removed, and the control is rebuilt if the layer had been
    registered in it.  Returns the map's layers, the control and the flag. *)
Definition detachRemote (this : Visual)
  : list Layer * option (list (string * Layer)) * bool :=
  match hccsLayer this with
  | Some old =>
      if hasLayer old (mapLayers this)
      then
        let layers := removeLayer old (mapLayers this) in
        match layerControl this with
        | Some _ =>
            if hccsLayerAdded this
            then (layers, Some baseControl, false)
            else (layers, layerControl this, hccsLayerAdded this)
        | None => (layers, layerControl this, hccsLayerAdded this)
        end
      else (mapLayers this, layerControl this, hccsLayerAdded this)
  | None => (mapLayers this, layerControl this, hccsLayerAdded this)
  end.

(** "Add to LayerControl once": [addOverlay] appends an entry. *)
Definition registerRemote (fresh : Layer)
    (control : option (list (string * Layer))) (added : bool)
  : option (list (string * Layer)) * bool :=
  match control with
  | Some entries =>
      if negb added
      then (Some (entries ++ [("High Crash Corridors", fresh)])%list, true)
      else (control, added)
  | None => (control, added)
  end.

Definition retryMessage (n : Z) : string :=
  "INTERSTATE role not assigned. Retry " +:+ numberToString (Fin n) +:+ "/5...".

Definition exhaustedMessage : string :=
  "INTERSTATE role still not assigned after retries.".

(** [performUpdate] from [this.previousTableData = dv.table] to its end:
    the cycle that runs once the two guards have let the update in. *)
Definition reconcile (options : VisualUpdateOptions) (dv : DataView)
    (tbl : DataViewTable) (this : Visual) : Visual :=
  let previous := Some tbl in
  let frames' := (frames this ++ [viewport options])%list in
  let metric := selectedMetricOf dv in
  let rows := default [] (rows tbl) in
  let cols := default [] (columns tbl) in
  let latIdx := findIndex (hasRole "y") cols in
  let lonIdx := findIndex (hasRole "x") cols in
  let crashIdx := findIndex (hasRole "crashWeight") cols in
  let fipsIdx := findIndex (hasRole "countyFIPS") cols in
  let interstateIdx := findIndex (hasRole "interstate") cols in
  if interstateIdx <? 0 then
    if retryCount this <? 5 then
      {| countyLayers := countyLayers this;
         hccsLayer := hccsLayer this;
         hccsLayerAdded := hccsLayerAdded this;
         layerControl := layerControl this;
         settings_selectedMetric := metric;
         previousTableData := previous;
         retryCount := retryCount this + 1;
         mapLayers := mapLayers this;
         markers := markers this;
         fittedTo := fittedTo this;
         console := (console this ++ [Warn (retryMessage (retryCount this + 1))])%list;
         timers := (timers this ++ [(500, options)])%list;
         frames := frames';
         layerSeq := layerSeq this |}
    else
      {| countyLayers := countyLayers this;
         hccsLayer := hccsLayer this;
         hccsLayerAdded := hccsLayerAdded this;
         layerControl := layerControl this;
         settings_selectedMetric := metric;
         previousTableData := previous;
         retryCount := retryCount this;
         mapLayers := mapLayers this;
         markers := markers this;
         fittedTo := fittedTo this;
         console := (console this ++ [Error exhaustedMessage])%list;
         timers := timers this;
         frames := frames';
         layerSeq := layerSeq this |}
  else
  let selected := selectedInterstates (jsonFilters options) rows interstateIdx in
  if (Z.of_nat (length rows) =? 0)
     || existsb (λ i, i <? 0) [latIdx; lonIdx; crashIdx; fipsIdx]
  then
    {| countyLayers := countyLayers this;
       hccsLayer := hccsLayer this;
       hccsLayerAdded := hccsLayerAdded this;
       layerControl := layerControl this;
       settings_selectedMetric := metric;
       previousTableData := previous;
       retryCount := 0;
       mapLayers := mapLayers this;
       markers := markers this;
       fittedTo := fittedTo this;
       console := console this;
       timers := timers this;
       frames := frames';
       layerSeq := layerSeq this |}
  else
  let totals := crashByFIPS rows fipsIdx crashIdx in
  let bounds := countyBounds (countyLayers this) (filteredFIPS rows fipsIdx) in
  let '(layers, control, added) := detachRemote this in
  let fresh := FeatureLayer (layerSeq this) (whereOf selected) in
  let '(control', added') := registerRemote fresh control added in
  {| countyLayers := map_imap (λ f layer, Some (restyleCounty totals f layer))
                              (countyLayers this);
     hccsLayer := Some fresh;
     hccsLayerAdded := added';
     layerControl := control';
     settings_selectedMetric := metric;
     previousTableData := previous;
     retryCount := 0;
     mapLayers := addLayer fresh layers;
     markers := buildMarkers rows latIdx lonIdx crashIdx fipsIdx;
     fittedTo := if 0 <? Z.of_nat (length bounds) then Some bounds else fittedTo this;
     console := console this;
     timers := timers this;
     frames := frames';
     layerSeq := S (layerSeq this) |}.

(** [performUpdate(options)] as a transition of the visual: the guards on a
    missing table and on an unchanged table, then the cycle. *)
Definition performUpdate (options : VisualUpdateOptions) (this : Visual) : Visual :=
  match dataViews options ≫= head with
  | None => this
  | Some dv =>
      match table dv with
      | None => this
      | Some tbl =>
          if unchanged (previousTableData this) tbl then this
          else reconcile options dv tbl this
      end
  end.

(** The 500 ms timer that is due first fires: its callback calls
    [performUpdate] with the options it captured. *)
Definition fireTimer (this : Visual) : Visual :=
  match timers this with
  | [] => this
  | (_, options) :: rest => performUpdate options (withTimers rest this)
  end.

(** Timers fire until none is pending, at most [fuel] of them. *)
Fixpoint fireTimers (fuel : nat) (this : Visual) : Visual :=
  match fuel with
  | O => this
  | S fuel' =>
      match timers this with
      | [] => this
      | _ => fireTimers fuel' (fireTimer this)
      end
  end.

(** A feature of the county boundary data: its [FIPS] property and whether
    its geometry has valid bounds. *)
Record Feature : Type := {
  FIPS : PrimitiveValue;
  hasBounds : bool
}.

(** [onEachFeature]: [if (fips != null) this.countyLayers[String(fips)] = layer] *)
Definition onEachFeature (layers : gmap string CountyPath) (feature : Feature)
  : gmap string CountyPath :=
  if isNullish (FIPS feature) then layers
  else <[toString (FIPS feature) :=
           {| tooltip := None; tooltipBinds := 0; fillColor := None;
              hoverHandlers := 0; boundsValid := hasBounds feature |}]> layers.

(** The visual as the constructor leaves it, for the given boundary data. *)
Definition constructor_ (counties : list Feature) : Visual :=
  {| countyLayers := fold_left onEachFeature counties ∅;
     hccsLayer := None;
     hccsLayerAdded := false;
     layerControl := Some baseControl;
     settings_selectedMetric := VStr "crashes";
     previousTableData := None;
     retryCount := 0;
     mapLayers := [TileLayer; PruneCluster; CountiesLayer];
     markers := [];
     fittedTo := None;
     console := [];
     timers := [];
     frames := [];
     layerSeq := 0 |}.

End Reconciliation.

(** ** Sample data *)

Module Sample.

Fixpoint digitsValue (acc : Z) (s : string) : option Z :=
  match s with
  | EmptyString => Some acc
  | String c s' =>
      let n := Z.of_N (N_of_ascii c) in
      if (48 <=? n) && (n <=? 57) then digitsValue (10 * acc + (n - 48)) s'
      else None
  end.

(** [StringToNumber] on the strings the samples use: after trimming, an
    optionally signed run of decimal digits is that integer and the empty
    string is 0; any other text is taken as NaN, as text that is no numeric
    literal is. *)
Definition StringToNumber (s : string) : number :=
  match trim s with
  | EmptyString => Fin 0
  | String "-" (String _ _ as r) =>
      match digitsValue 0 r with Some z => Fin (- z) | None => NaN end
  | String "+" (String _ _ as r) =>
      match digitsValue 0 r with Some z => Fin z | None => NaN end
  | t => match digitsValue 0 t with Some z => Fin z | None => NaN end
  end.

Definition fipsToCounty (n : number) : option string :=
  match n with
  | Fin 37063 => Some "Durham"
  | Fin 37183 => Some "Wake"
  | _ => None
  end.

Definition counties : list Feature :=
  [ {| FIPS := VNum (Fin 37063); hasBounds := true |};
    {| FIPS := VNum (Fin 37183); hasBounds := true |} ].

Definition role (name : string) : DataViewMetadataColumn :=
  {| displayName := name; roles := Some {[ name := true ]} |}.

(** Columns for latitude, longitude, weight and county, in that order, and
    the interstate column when [withInterstate] is set. *)
Definition columnsOf (withInterstate : bool) : list DataViewMetadataColumn :=
  [role "y"; role "x"; role "crashWeight"; role "countyFIPS"]
  ++ (if withInterstate then [role "interstate"] else []).

Definition optionsOf (withInterstate : bool) (rs : list (list PrimitiveValue))
    (filters : list IFilter) (metric : string) : VisualUpdateOptions :=
  {| dataViews :=
       Some [ {| table := Some {| columns := Some (columnsOf withInterstate);
                                  rows := Some rs |};
                 objects := Some {[ "dataSelector" :=
                                      {[ "selectedMetric" := VStr metric ]} ]} |} ];
     jsonFilters := filters;
     viewport := {| width := Fin 800; height := Fin 600 |} |}.

Definition row (la lo : Z) (w fips : PrimitiveValue) (route : string)
  : list PrimitiveValue :=
  [VNum (Fin la); VNum (Fin lo); w; fips; VStr route].

(** Two Durham rows and a Wake row whose weight is text. *)
Definition threeRows : list (list PrimitiveValue) :=
  [ row 35 (-79) (VNum (Fin 120)) (VNum (Fin 37063)) "I-40";
    row 36 (-78) (VStr "n/a") (VNum (Fin 37183)) "I 95";
    row 35 (-79) (VNum (Fin 7)) (VNum (Fin 37063)) "I-40" ].

(** A row without a county. *)
Definition keylessRows : list (list PrimitiveValue) :=
  [ row 35 (-79) (VNum (Fin 5)) VNull "I-40" ].

(** Three Durham rows with the weights Infinity, -Infinity and 1, and the
    same rows with the last one first. *)
Definition infiniteRows : list (list PrimitiveValue) :=
  [ row 35 (-79) (VNum PosInf) (VNum (Fin 37063)) "I-40";
    row 35 (-79) (VNum NegInf) (VNum (Fin 37063)) "I-40";
    row 35 (-79) (VNum (Fin 1)) (VNum (Fin 37063)) "I-40" ].


(** A row of a county whose code has four digits. *)
Definition shortKeyRow : list PrimitiveValue :=
  row 32 (-86) (VNum (Fin 7)) (VNum (Fin 1001)) "I-85".

(** A basic filter on the interstate column, one of its values null. *)
Definition interstateFilter : IFilter :=
  {| filterType := Basic;
     target := inl {| targetTable := "Crashes"; column := Some "INTERSTATE" |};
     values := Some [VStr " I-40 "; VNull; VStr "I 95"] |}.

(** An update with the three rows and every role assigned; the same update
    with the other metric; an update with other rows; and an update whose
    table has no interstate column. *)
Definition crashesUpdate : VisualUpdateOptions :=
  optionsOf true threeRows [] "crashes".

Definition personsMetric : VisualUpdateOptions :=
  optionsOf true threeRows [] "persons".

Definition personsUpdate : VisualUpdateOptions :=
  optionsOf true keylessRows [interstateFilter] "persons".

Definition roleless : VisualUpdateOptions :=
  optionsOf false threeRows [] "crashes".

Definition update := performUpdate StringToNumber fipsToCounty.
Definition settle := fireTimers StringToNumber fipsToCounty.
Definition start : Visual := constructor_ counties.

End Sample.

(** ** Vocabulary of the properties *)

(** The string literals of a predicate: the text between the first and the
    second single quote, between the third and the fourth, and so on. *)
Fixpoint splitQuote (s : string) : list string :=
  match s with
  | EmptyString => [EmptyString]
  | String c s' =>
      match splitQuote s' with
      | [] => []
      | p :: ps => if decide (c = "'"%char) then EmptyString :: p :: ps
                   else String c p :: ps
      end
  end.

Fixpoint quoteFree (s : string) : bool :=
  match s with
  | EmptyString => true
  | String c s' => negb (bool_decide (c = "'"%char)) && quoteFree s'
  end.

Fixpoint oddElements (l : list string) : list string :=
  match l with
  | _ :: x :: rest => x :: oddElements rest
  | _ => []
  end.

Definition quotedLiterals (predicate : string) : list string :=
  oddElements (splitQuote predicate).

(** The trimmed text of a filter value that is not null. *)
Definition valueText (val : PrimitiveValue) (x : string) : Prop :=
  isNullish val = false ∧ x = trim (toString val).

(** What one filter contributes: the values of a basic filter that has a
    target on the interstate column. *)
Definition filterText (f : IFilter) (x : string) : Prop :=
  filterType f = Basic
  ∧ (∃ t, t ∈ targetsOf f ∧ targetsInterstate t = true)
  ∧ ∃ val, val ∈ default [] (values f) ∧ valueText val x.

(** The table an update carries: [options.dataViews?.[0]?.table]. *)
Definition tableOf (options : VisualUpdateOptions) : option DataViewTable :=
  match dataViews options ≫= head with
  | Some dv => table dv
  | None => None
  end.








(** Two updates that differ at most in [metadata.objects], where the
    selected metric lives: same tables, same filters, same viewport. *)
Definition sameButObjects (o1 o2 : VisualUpdateOptions) : Prop :=
  option_Forall2 (Forall2 (λ d1 d2, table d1 = table d2))
                 (dataViews o1) (dataViews o2)
  ∧ jsonFilters o1 = jsonFilters o2
  ∧ viewport o1 = viewport o2.

(** Two visuals that differ at most in the stored metric and in the
    [objects] of the updates their timers captured. *)
Definition sameButMetric (s1 s2 : Visual) : Prop :=
  countyLayers s1 = countyLayers s2
  ∧ hccsLayer s1 = hccsLayer s2
  ∧ hccsLayerAdded s1 = hccsLayerAdded s2
  ∧ layerControl s1 = layerControl s2
  ∧ previousTableData s1 = previousTableData s2
  ∧ retryCount s1 = retryCount s2
  ∧ mapLayers s1 = mapLayers s2
  ∧ markers s1 = markers s2
  ∧ fittedTo s1 = fittedTo s2
  ∧ console s1 = console s2
  ∧ Forall2 (λ t1 t2, fst t1 = fst t2 ∧ sameButObjects (snd t1) (snd t2))
            (timers s1) (timers s2)
  ∧ frames s1 = frames s2
  ∧ layerSeq s1 = layerSeq s2.


Section Reachability.

Variable StringToNumber : string -> number.
Variable fipsToCounty : number -> option string.
Variable counties : list Feature.

(** The visuals that arise from the constructor by update cycles and by
    timers firing.  The map's layers are changed by nothing else. *)
Inductive reachable : Visual -> Prop :=
| reachable_constructor : reachable (constructor_ counties)
| reachable_update options this :
    reachable this ->
    reachable (performUpdate StringToNumber fipsToCounty options this)
| reachable_timer this :
    reachable this ->
    reachable (fireTimer StringToNumber fipsToCounty this).

End Reachability.

(** ** Earlier revisions *)

(** The totals loop of the two earlier revisions (the points-layer one and
    the marker-cluster one): a row whose county cell is [null] or
    [undefined] is skipped.  Only the latitude and longitude roles are
    checked before the loop, so [fipsIndex] and [metricIndex] can be -1. *)
Module EarlierTotals.

Section Totals.

Variable StringToNumber : string -> number.

Definition aggregateRow (fipsIndex metricIndex : Z) (totals : gmap string number)
    (row : list PrimitiveValue) : gmap string number :=
  let f := at_ row fipsIndex in
  let v := orZero (toNumber StringToNumber (at_ row metricIndex)) in
  if isNullish f then totals
  else <[toString f := numAdd (totalOrZero totals (toString f)) v]> totals.

Definition crashByFIPS (rows : list (list PrimitiveValue))
    (fipsIndex metricIndex : Z) : gmap string number :=
  fold_left (aggregateRow fipsIndex metricIndex) rows ∅.

End Totals.

End EarlierTotals.

(** The colour function of the points-layer revision: it takes the
    breakpoints as an argument, starts at [b[1]] and has no transparent
    class. *)
Module PointsLayerVariant.

Definition breaks : list number :=
  [Fin 0; Fin 50; Fin 100; Fin 500; Fin 1000; Fin 5000; Fin 10000].

Definition getColor (value : number) (b : list number) : string :=
  if numLe value (b !!! 1%nat) then "#ffffcc" else
  if numLe value (b !!! 2%nat) then "#ffeda0" else
  if numLe value (b !!! 3%nat) then "#feb24c" else
  if numLe value (b !!! 4%nat) then "#fd8d3c" else
  if numLe value (b !!! 5%nat) then "#f03b20" else
  if numLe value (b !!! 6%nat) then "#bd0026" else
  "#800026".

End PointsLayerVariant.

(** The query of the first revision with a remote layer: the interstates
    are read from the rows alone, the first space of each is turned into a
    dash, and all of them are compiled into the predicate. *)
Module RowsOnlyVariant.

(** [s.replace(" ", "-")]: the first space only. *)
Fixpoint replaceFirstSpace (s : string) : string :=
  match s with
  | EmptyString => EmptyString
  | String c s' =>
      if decide (c = " "%char) then String "-" s'
      else String c (replaceFirstSpace s')
  end.

(** [row[interstateIdx]?.toString().replace(" ", "-")], added when it is
    not [undefined]. *)
Definition interstates (rows : list (list PrimitiveValue)) (interstateIdx : Z)
  : list string :=
  fold_left
    (λ sel row,
       let cell := at_ row interstateIdx in
       if isNullish cell then sel
       else setAdd (replaceFirstSpace (toString cell)) sel)
    rows [].

Definition whereOf (rows : list (list PrimitiveValue)) (interstateIdx : Z)
  : string :=
  let interstates := interstates rows interstateIdx in
  if (0 <? Z.of_nat (length interstates))
  then "RouteName IN (" +:+ join ", " (map quote interstates) +:+ ")"
  else "1=0".

End RowsOnlyVariant.

(** ** Vocabulary of the further properties *)

(** [name]'s column index in a table, as [performUpdate] computes it. *)
Definition roleIndex (name : string) (tbl : DataViewTable) : Z :=
  findIndex (hasRole name) (default [] (columns tbl)).

(** The condition under which [performUpdate] reaches the layers: the
    interstate role is assigned, there is a row, and the latitude,
    longitude, weight and county roles are assigned. *)
Definition runsFullCycle (tbl : DataViewTable) : bool :=
  (0 <=? roleIndex "interstate" tbl)
  && negb (Z.of_nat (length (default [] (rows tbl))) =? 0)
  && forallb (λ i, 0 <=? i)
       [roleIndex "y" tbl; roleIndex "x" tbl; roleIndex "crashWeight" tbl;
        roleIndex "countyFIPS" tbl].

(** What is drawn: the county paths, the remote layer and its flag, the
    control, the map's layers, the markers and the fitted view. *)
Definition surfaceOf (this : Visual)
  : gmap string CountyPath * option Layer * bool
    * option (list (string * Layer)) * list Layer * list Marker
    * option (list string) :=
  (countyLayers this, hccsLayer this, hccsLayerAdded this, layerControl this,
   mapLayers this, markers this, fittedTo this).

Fixpoint hasWhiteSpace (s : string) : bool :=
  match s with
  | EmptyString => false
  | String c s' => isWhiteSpace c || hasWhiteSpace s'
  end.

(** The predicate of a layer, when it is a remote feature layer. *)
Definition whereClause (l : Layer) : option string :=
  match l with
  | FeatureLayer _ w => Some w
  | _ => None
  end.

(** The list that holds the current remote layer, if there is one. *)
Definition remoteLayers (this : Visual) : list Layer :=
  match hccsLayer this with
  | Some l => [l]
  | None => []
  end.

(** The exact shape of the map and of the control: the three layers of the
    constructor followed by the current remote layer, if any; the two
    entries of the constructor followed by an entry for that layer; the flag
    set exactly when there is one; and the layer's predicate compiled by
    [whereOf]. *)
Definition exactShape (this : Visual) : Prop :=
  mapLayers this = [TileLayer; PruneCluster; CountiesLayer] ++ remoteLayers this
  ∧ layerControl this
    = Some (baseControl
            ++ map (λ l, ("High Crash Corridors", l)) (remoteLayers this))
  ∧ hccsLayerAdded this = bool_decide (remoteLayers this ≠ [])
  ∧ Forall (λ l, ∃ id selected, l = FeatureLayer id (whereOf selected))
           (remoteLayers this).


(** * Properties *)

(** ** Samples of the helpers *)

Example trim_sample : trim " i-40 " = "i-40".
Proof. reflexivity. Qed.

Example replace_sample : replaceWsRuns false "I  40 b" = "I-40-b".
Proof. reflexivity. Qed.

Example padStart_sample : padStart 5 "0" "1001" = "01001".
Proof. reflexivity. Qed.

Example toString_sample : toString (VNum (Fin 37063)) = "37063".
Proof. reflexivity. Qed.

Example whereOf_sample :
  whereOf ["I-40"; "DROP TABLE"; "i-40"] = "RouteName IN ('I-40')".
Proof. reflexivity. Qed.

Example whereOf_none : whereOf ["DROP TABLE"; "i-40"] = "1=0".
Proof. reflexivity. Qed.

Example whereOf_spaces : whereOf ["I 40"; "I   95"] = "RouteName IN ('I-40', 'I-95')".
Proof. reflexivity. Qed.


(** ** Classification *)

Lemma classOfFrom_shift (bs : list number) (val : number) (k : nat) :
  classOfFrom bs val k = (k + classOf bs val)%nat.
Proof.
  unfold classOf. revert k.
  induction bs as [|b bs IH]; intros k; simpl.
  - lia.
  - destruct (numLe val b); [lia|].
    rewrite (IH (S k)), (IH 1%nat). lia.
Qed.

Lemma classOf_cons (b : number) (bs : list number) (val : number) :
  classOf (b :: bs) val = if numLe val b then 0%nat else S (classOf bs val).
Proof.
  unfold classOf at 1. simpl. destruct (numLe val b); [done|].
  by rewrite classOfFrom_shift.
Qed.

(** The class is the first breakpoint that bounds the value. *)
Lemma classOf_first (bs : list number) (val : number) (i : nat) :
  classOf bs val = i ↔
  (i ≤ length bs)%nat
  ∧ (∀ j b, (j < i)%nat → bs !! j = Some b → numLe val b = false)
  ∧ (∀ b, bs !! i = Some b → numLe val b = true).
Proof.
  revert i. induction bs as [|b0 bs IH]; intros i.
  - unfold classOf; simpl. split.
    + intros <-. split; [lia|]. split; [intros; lia | intros b Hb; done].
    + intros (Hi & _ & _). simpl in Hi. lia.
  - rewrite classOf_cons. destruct (numLe val b0) eqn:Hle.
    + split.
      * intros <-. split; [simpl; lia|]. split; [intros; lia|].
        intros b Hb. simpl in Hb. by simplify_eq.
      * intros (_ & Hlt & _). destruct i as [|i]; [done|].
        specialize (Hlt 0%nat b0 ltac:(lia) eq_refl). congruence.
    + split.
      * intros <-. pose proof (proj1 (IH _) eq_refl) as (Hlen & Hlt & Hat).
        split; [simpl; lia|]. split.
        -- intros [|j] b Hj Hb; simpl in Hb; [by simplify_eq|].
           apply (Hlt j); [lia|done].
        -- intros b Hb. simpl in Hb. by apply Hat.
      * intros (Hlen & Hlt & Hat). destruct i as [|i].
        -- specialize (Hat b0 eq_refl). congruence.
        -- f_equal. apply IH. split; [simpl in Hlen; lia|]. split.
           ++ intros j b Hj Hb. apply (Hlt (S j)); [lia|done].
           ++ intros b Hb. by apply Hat.
Qed.

Lemma getColor_classOf (val : number) :
  getColor val = getColor_palette !!! classOf getColor_breaks val.
Proof.
  unfold getColor, getColor_breaks.
  repeat (rewrite classOf_cons; simpl;
          match goal with |- context [numLe val ?b] => destruct (numLe val b) end;
          [reflexivity|]).
  reflexivity.
Qed.

Lemma getChoro_classOf (val : number) :
  getChoro val = getChoro_palette !!! classOf getColor_breaks val.
Proof.
  unfold getChoro, getColor_breaks.
  repeat (rewrite classOf_cons; simpl;
          match goal with |- context [numLe val ?b] => destruct (numLe val b) end;
          [reflexivity|]).
  reflexivity.
Qed.

Lemma variant_getColor_classOf (val : number) :
  MarkerClusterVariant.getColor val
  = getColor_palette !!! classOf MarkerClusterVariant.breaks val.
Proof.
  unfold MarkerClusterVariant.getColor, MarkerClusterVariant.breaks.
  repeat (rewrite classOf_cons; simpl;
          match goal with |- context [numLe val ?b] => destruct (numLe val b) end;
          [reflexivity|]).
  reflexivity.
Qed.

(** C2, as stated, fails: with the breakpoints [0, 50, 100, 500, 1000, 5000,
    10000] the inputs 0, 50, 51, 10000, 10001 do not map to the classes
    transparent, 1, 2, 7, 7, because 10000 is bounded by the last breakpoint
    and falls in class 6. *)
Lemma classification_samples_counterexample :
  map (classOf MarkerClusterVariant.breaks)
      [Fin 0; Fin 50; Fin 51; Fin 10000; Fin 10001]
  ≠ [0; 1; 2; 7; 7]%nat
  ∧ MarkerClusterVariant.getColor (Fin 10000)
    ≠ MarkerClusterVariant.getColor (Fin 10001).
Proof. split; vm_compute; discriminate. Qed.

(** C2, amended: the classification is total: every number, NaN and the
    infinities included, has exactly one of the eight classes 0 to 7, which
    is the first breakpoint in ascending order with [val <= b[i]] and class 7
    past the last one; [getColor] and [getChoro] are this classification
    over [0, 10, 50, 100, 200, 500, 1000] and the earlier revision's
    [getColor] is it over [0, 50, 100, 500, 1000, 5000, 10000]; for the
    latter sequence the inputs 0, 50, 51, 10000, 10001 map to the classes
    transparent, 1, 2, 6, 7. *)
Theorem classification_total :
  (∀ val, getColor val = getColor_palette !!! classOf getColor_breaks val
          ∧ getChoro val = getChoro_palette !!! classOf getColor_breaks val
          ∧ MarkerClusterVariant.getColor val
            = getColor_palette !!! classOf MarkerClusterVariant.breaks val)
  ∧ (∀ bs val i,
       classOf bs val = i ↔
       (i ≤ length bs)%nat
       ∧ (∀ j b, (j < i)%nat → bs !! j = Some b → numLe val b = false)
       ∧ (∀ b, bs !! i = Some b → numLe val b = true))
  ∧ (∀ val, (classOf getColor_breaks val < 8)%nat
            ∧ (classOf MarkerClusterVariant.breaks val < 8)%nat)
  ∧ map (classOf MarkerClusterVariant.breaks)
        [Fin 0; Fin 50; Fin 51; Fin 10000; Fin 10001]
    = [0; 1; 2; 6; 7]%nat
  ∧ map MarkerClusterVariant.getColor
        [Fin 0; Fin 50; Fin 51; Fin 10000; Fin 10001]
    = ["rgba(0,0,0,0)"; "#ffffcc"; "#ffeda0"; "#bd0026"; "#800026"].
Proof.
  split; [|split; [|split; [|split]]].
  - intros val. auto using getColor_classOf, getChoro_classOf, variant_getColor_classOf.
  - apply classOf_first.
  - intros val. split.
    + pose proof (proj1 (classOf_first getColor_breaks val _) eq_refl) as [H _].
      simpl in H. lia.
    + pose proof (proj1 (classOf_first MarkerClusterVariant.breaks val _) eq_refl) as [H _].
      simpl in H. lia.
  - reflexivity.
  - reflexivity.
Qed.

(** ** Query builder *)

Lemma app_cons (c : ascii) (p s : string) : String c p +:+ s = String c (p +:+ s).
Proof. reflexivity. Qed.

Lemma app_nil_l_str (s : string) : "" +:+ s = s.
Proof. reflexivity. Qed.

Lemma app_assoc_str (a b c : string) : (a +:+ b) +:+ c = a +:+ (b +:+ c).
Proof. induction a as [|x a IH]; [done|]. rewrite !app_cons. by f_equal. Qed.

Lemma splitQuote_nonempty (s : string) : splitQuote s ≠ [].
Proof.
  induction s as [|c s IH]; simpl; [done|].
  destruct (splitQuote s); [done|]. by case_decide.
Qed.

Lemma splitQuote_quote (s : string) :
  splitQuote ("'" +:+ s) = "" :: splitQuote s.
Proof.
  rewrite app_cons, app_nil_l_str. simpl.
  destruct (splitQuote s) eqn:E; [by apply splitQuote_nonempty in E|].
  reflexivity.
Qed.

(** Text without a quote stays in front of the first piece. *)
Lemma splitQuote_free (p s : string) :
  quoteFree p = true →
  splitQuote (p +:+ s)
  = match splitQuote s with
    | h :: t => (p +:+ h) :: t
    | [] => []
    end.
Proof.
  induction p as [|c p IH]; intros Hp.
  - rewrite app_nil_l_str. destruct (splitQuote s); reflexivity.
  - simpl in Hp. apply andb_true_iff in Hp as [Hc Hp].
    rewrite app_cons. simpl. rewrite (IH Hp).
    destruct (splitQuote s) as [|h t]; [done|].
    case_decide as Hq; [|reflexivity].
    subst c. by rewrite bool_decide_eq_true_2 in Hc.
Qed.

Lemma splitQuote_free_only (p : string) :
  quoteFree p = true → splitQuote p = [p].
Proof.
  induction p as [|c p IH]; intros Hp; [done|].
  simpl in Hp. apply andb_true_iff in Hp as [Hc Hp].
  simpl. rewrite (IH Hp). case_decide as Hq; [|done].
  subst c. by rewrite bool_decide_eq_true_2 in Hc.
Qed.

Lemma app_nil_r_str (s : string) : s +:+ "" = s.
Proof. induction s as [|c s IH]; [done|]. rewrite app_cons. by f_equal. Qed.

(** The literals of a rendered list are the list, as long as no token holds
    a quote. *)
Lemma quotedLiterals_join (toks : list string) (pre post : string) :
  toks ≠ [] →
  Forall (λ t, quoteFree t = true) toks →
  quoteFree pre = true → quoteFree post = true →
  ∃ rest, splitQuote (pre +:+ join ", " (map quote toks) +:+ post) = pre :: rest
          ∧ oddElements (pre :: rest) = toks.
Proof.
  revert pre. induction toks as [|t toks IH]; intros pre Hne Hall Hpre Hpost; [done|].
  apply Forall_cons in Hall as [Ht Hall].
  destruct toks as [|t' toks].
  - exists [t; post]. split; [|done].
    simpl. unfold quote. rewrite !app_assoc_str.
    rewrite (splitQuote_free pre), splitQuote_quote, app_nil_r_str by done.
    rewrite (splitQuote_free t), splitQuote_quote by done.
    by rewrite (splitQuote_free_only post), app_nil_r_str.
  - destruct (IH ", " ltac:(done) Hall eq_refl Hpost) as (rest & Hsplit & Hodd).
    exists (t :: ", " :: rest). split.
    + change (join ", " (map quote (t :: t' :: toks)))
        with (quote t +:+ ", " +:+ join ", " (map quote (t' :: toks))).
      unfold quote at 1. rewrite !app_assoc_str.
      rewrite (splitQuote_free pre), splitQuote_quote, app_nil_r_str by done.
      rewrite (splitQuote_free t), splitQuote_quote, app_nil_r_str by done.
      by rewrite Hsplit.
    + simpl in *. by rewrite Hodd.
Qed.

Lemma VALID_ROUTES_quoteFree (tok : string) :
  tok ∈ VALID_ROUTES → quoteFree tok = true.
Proof.
  unfold VALID_ROUTES. rewrite !elem_of_cons, elem_of_nil.
  intros [->|[->|[->|[->|[->|[]]]]]]; reflexivity.
Qed.

Lemma safeInterstates_spec (selected : list string) (tok : string) :
  tok ∈ safeInterstates selected ↔
  tok ∈ VALID_ROUTES ∧ ∃ raw, raw ∈ selected ∧ normalize raw = tok.
Proof.
  unfold safeInterstates. rewrite list_elem_of_filter, list_elem_of_fmap.
  split.
  - intros [Hv (raw & -> & Hraw)]. eauto.
  - intros [Hv (raw & Hraw & <-)]. eauto.
Qed.

Lemma whereOf_literals (selected : list string) :
  quotedLiterals (whereOf selected) = safeInterstates selected.
Proof.
  unfold whereOf. destruct (safeInterstates selected) as [|t toks] eqn:E.
  - reflexivity.
  - assert (Hall : Forall (λ t, quoteFree t = true) (t :: toks)).
    { apply Forall_forall. intros x Hx. apply VALID_ROUTES_quoteFree.
      rewrite <- E in Hx. by apply safeInterstates_spec in Hx as [? _]. }
    destruct (quotedLiterals_join (t :: toks) "RouteName IN (" ")"
                ltac:(done) Hall eq_refl eq_refl) as (rest & Hsplit & Hodd).
    replace (0 <? Z.of_nat (length (t :: toks))) with true
      by (symmetry; apply Z.ltb_lt; simpl; lia).
    unfold quotedLiterals. by rewrite Hsplit.
Qed.

(** C1: whatever strings are selected, every string literal of the compiled
    predicate is a member of the allow-list (an exact, case-sensitive match)
    and is the normal form (trimmed, white-space runs turned into one dash)
    of a selected string; when no candidate survives the allow-list the
    predicate is ["1=0"], and otherwise it is the [IN] list of the
    survivors. *)
Theorem where_only_allowed (selected : list string) :
  Forall (λ tok, tok ∈ VALID_ROUTES
                 ∧ ∃ raw, raw ∈ selected ∧ normalize raw = tok)
         (quotedLiterals (whereOf selected))
  ∧ ((∀ raw, raw ∈ selected → normalize raw ∉ VALID_ROUTES) →
     whereOf selected = "1=0")
  ∧ ((∃ raw, raw ∈ selected ∧ normalize raw ∈ VALID_ROUTES) →
     whereOf selected
     = "RouteName IN (" +:+ join ", " (map quote (safeInterstates selected)) +:+ ")"
     ∧ quotedLiterals (whereOf selected) = safeInterstates selected
     ∧ safeInterstates selected ≠ []).
Proof.
  split; [|split].
  - rewrite whereOf_literals. apply Forall_forall. intros tok.
    by rewrite safeInterstates_spec.
  - intros Hnone. unfold whereOf.
    destruct (safeInterstates selected) as [|t toks] eqn:E; [done|].
    assert (Ht : t ∈ safeInterstates selected) by (rewrite E; left).
    apply safeInterstates_spec in Ht as (Hv & raw & Hraw & <-).
    by destruct (Hnone raw Hraw).
  - intros (raw & Hraw & Hv).
    assert (Hin : normalize raw ∈ safeInterstates selected)
      by (apply safeInterstates_spec; eauto).
    split; [|split].
    + unfold whereOf. destruct (safeInterstates selected) as [|t toks].
      * by apply elem_of_nil in Hin.
      * replace (0 <? Z.of_nat (length (t :: toks))) with true
          by (symmetry; apply Z.ltb_lt; simpl; lia).
        done.
    + apply whereOf_literals.
    + intros E. rewrite E in Hin. by apply elem_of_nil in Hin.
Qed.

(** C1 at the selection [{"I-40", "DROP TABLE", " i-40 "}]. *)
Lemma where_only_allowed_witness :
  Forall (λ tok, tok ∈ VALID_ROUTES)
         (quotedLiterals (whereOf ["I-40"; "DROP TABLE"; " i-40 "]))
  ∧ whereOf ["I-40"; "DROP TABLE"; " i-40 "] = "RouteName IN ('I-40')"
  ∧ whereOf ["DROP TABLE"; " i-40 "] = "1=0".
Proof.
  split; [|split].
  - eapply Forall_impl.
    + exact (proj1 (where_only_allowed ["I-40"; "DROP TABLE"; " i-40 "])).
    + intros tok [H _]. exact H.
  - reflexivity.
  - apply (proj1 (proj2 (where_only_allowed ["DROP TABLE"; " i-40 "]))).
    intros raw Hraw.
    repeat (apply elem_of_cons in Hraw as [->|Hraw]);
      [| |by apply elem_of_nil in Hraw];
      refine (bool_decide_unpack _ _); vm_compute; exact I.
Defined.

(** ** Aggregation *)











Section Aggregation.

Variable StringToNumber : string -> number.

(** A coerced weight is never NaN. *)
Lemma rowWeight_not_NaN (r : list PrimitiveValue) (crashIdx : Z) :
  rowWeight StringToNumber r crashIdx ≠ NaN.
Proof.
  unfold rowWeight, orZero.
  by destruct (toNumber StringToNumber (at_ r crashIdx)) as [[| |]| | |].
Qed.









(** The padded key is the key itself once the key has five characters. *)
Lemma paddedKey_long (r : list PrimitiveValue) (fipsIdx : Z) :
  (5 ≤ String.length (regionKey r fipsIdx))%nat →
  paddedKey r fipsIdx = regionKey r fipsIdx.
Proof.
  intros Hlen. unfold paddedKey, padStart.
  by replace (5 - String.length (regionKey r fipsIdx))%nat with 0%nat by lia.
Qed.

End Aggregation.





(** C9 at a county code of four digits: the weight of the row is accumulated
    under ["1001"], while its marker, the bounds lookup and the padded form
    all use ["01001"]; the total has no entry under the padded key. *)
Theorem short_key_formats_disagree :
  regionKey Sample.shortKeyRow 3 = "1001"
  ∧ paddedKey Sample.shortKeyRow 3 = "01001"
  ∧ crashByFIPS Sample.StringToNumber [Sample.shortKeyRow] 3 2 !! "1001"
    = Some (Fin 7)
  ∧ crashByFIPS Sample.StringToNumber [Sample.shortKeyRow] 3 2 !! "01001" = None
  ∧ map data_fips (buildMarkers Sample.StringToNumber [Sample.shortKeyRow] 0 1 2 3)
    = ["01001"]
  ∧ filteredFIPS [Sample.shortKeyRow] 3 = ["01001"].
Proof. repeat split; reflexivity. Qed.

(** ** Category selection *)

Lemma setAdd_elem (x y : string) (s : list string) :
  x ∈ setAdd y s ↔ x ∈ s ∨ x = y.
Proof.
  unfold setAdd. case_decide as Hy.
  - split; [by left|]. by intros [?| ->].
  - by rewrite elem_of_app, list_elem_of_singleton.
Qed.

Lemma setAdd_NoDup (y : string) (s : list string) :
  NoDup s → NoDup (setAdd y s).
Proof.
  intros Hs. unfold setAdd. case_decide as Hy; [done|].
  apply NoDup_app. split; [done|]. split; [|apply NoDup_singleton].
  intros x Hx ->%list_elem_of_singleton. done.
Qed.

(** A loop that only adds to a set: what it holds at the end. *)
Lemma fold_left_elem {A} (step : list string → A → list string)
    (P : A → string → Prop) :
  (∀ sel a x, x ∈ step sel a ↔ x ∈ sel ∨ P a x) →
  ∀ l sel x, x ∈ fold_left step l sel ↔ x ∈ sel ∨ ∃ a, a ∈ l ∧ P a x.
Proof.
  intros Hstep l. induction l as [|a l IH]; intros sel x; simpl.
  - split; [by left|]. intros [?|(a & Ha & _)]; [done|]. by apply elem_of_nil in Ha.
  - rewrite IH, Hstep. split.
    + intros [[?|?]|(b & Hb & ?)]; [by left| |].
      * right. exists a. split; [left|done].
      * right. exists b. split; [by right|done].
    + intros [?|(b & Hb & ?)]; [by left; left|].
      apply elem_of_cons in Hb as [->|Hb]; [by left; right|].
      right. eauto.
Qed.

Lemma fold_left_NoDup {A} (step : list string → A → list string) :
  (∀ sel a, NoDup sel → NoDup (step sel a)) →
  ∀ l sel, NoDup sel → NoDup (fold_left step l sel).
Proof.
  intros Hstep l. induction l as [|a l IH]; intros sel Hsel; simpl; [done|].
  apply IH. by apply Hstep.
Qed.

Lemma addValues_elem (vals : option (list PrimitiveValue))
    (sel : list string) (x : string) :
  x ∈ addValues vals sel ↔
  x ∈ sel ∨ ∃ val, val ∈ default [] vals ∧ valueText val x.
Proof.
  unfold addValues. apply (fold_left_elem _ valueText).
  intros s val y. unfold valueText. destruct (isNullish val).
  - split; [by left|]. by intros [?|[? _]].
  - rewrite setAdd_elem. split.
    + intros [?| ->]; [by left|]. by right.
    + intros [?|[_ ->]]; [by left|by right].
Qed.

Lemma addValues_NoDup (vals : option (list PrimitiveValue)) (sel : list string) :
  NoDup sel → NoDup (addValues vals sel).
Proof.
  unfold addValues. apply fold_left_NoDup.
  intros s val Hs. destruct (isNullish val); [done|]. by apply setAdd_NoDup.
Qed.

Lemma selectedFromFilters_elem (jsonFilters : list IFilter) (x : string) :
  x ∈ selectedFromFilters jsonFilters ↔
  ∃ f, f ∈ jsonFilters ∧ filterText f x.
Proof.
  unfold selectedFromFilters.
  rewrite (fold_left_elem _ filterText).
  - split; [|by right]. intros [H|H]; [by apply elem_of_nil in H|done].
  - intros sel f y. unfold filterText. case_decide as Hb.
    + rewrite (fold_left_elem _
        (λ t z, targetsInterstate t = true
                ∧ ∃ val, val ∈ default [] (values f) ∧ valueText val z)).
      * split.
        -- intros [?|(t & Ht & Hi & Hv)]; [by left|]. right. eauto.
        -- intros [?|(_ & (t & Ht & Hi) & Hv)]; [by left|]. right. eauto.
      * intros s t z. destruct (targetsInterstate t).
        -- rewrite addValues_elem. split.
           ++ intros [?|Hv]; [by left|]. right. by split.
           ++ intros [?|[_ Hv]]; [by left|by right].
        -- split; [by left|]. by intros [?|[? _]].
    + split; [by left|]. by intros [?|[? _]].
Qed.

Lemma selectedFromFilters_NoDup (jsonFilters : list IFilter) :
  NoDup (selectedFromFilters jsonFilters).
Proof.
  unfold selectedFromFilters. apply fold_left_NoDup; [|constructor].
  intros sel f Hsel. case_decide; [|done].
  apply fold_left_NoDup; [|done].
  intros s t Hs. destruct (targetsInterstate t); [|done].
  by apply addValues_NoDup.
Qed.

Lemma selectedFromRows_elem (rows : list (list PrimitiveValue))
    (interstateIdx : Z) (sel : list string) (x : string) :
  x ∈ selectedFromRows rows interstateIdx sel ↔
  x ∈ sel ∨ ∃ row, row ∈ rows
                   ∧ rowInterstate row interstateIdx = Some x ∧ x ≠ "".
Proof.
  unfold selectedFromRows.
  apply (fold_left_elem _
           (λ row z, rowInterstate row interstateIdx = Some z ∧ z ≠ "")).
  intros s row z. destruct (rowInterstate row interstateIdx) as [val|].
  - case_decide as He.
    + subst val. split; [by left|]. intros [?|[[= <-] ?]]; done.
    + rewrite setAdd_elem. split.
      * intros [?| ->]; auto.
      * intros [?|[[= ->] _]]; auto.
  - split; [by left|]. by intros [?|[? _]].
Qed.

Lemma selectedFromRows_NoDup (rows : list (list PrimitiveValue))
    (interstateIdx : Z) (sel : list string) :
  NoDup sel → NoDup (selectedFromRows rows interstateIdx sel).
Proof.
  unfold selectedFromRows. apply fold_left_NoDup.
  intros s row Hs. destruct (rowInterstate row interstateIdx); [|done].
  case_decide; [done|]. by apply setAdd_NoDup.
Qed.

(** C7: the filters come first.  The values gathered from the filters are
    the trimmed texts of the non-null values of the basic filters that
    target the interstate column; when there is at least one, the selection
    is exactly that set; only when there is none is the selection the set of
    distinct non-empty trimmed values of the interstate cells of the rows. *)
Theorem selection_precedence (jsonFilters : list IFilter)
    (rows : list (list PrimitiveValue)) (interstateIdx : Z) :
  0 ≤ interstateIdx →
  (∀ x, x ∈ selectedFromFilters jsonFilters ↔
        ∃ f, f ∈ jsonFilters ∧ filterType f = Basic
             ∧ (∃ t, t ∈ targetsOf f ∧ targetsInterstate t = true)
             ∧ ∃ val, val ∈ default [] (values f) ∧ isNullish val = false
                      ∧ x = trim (toString val))
  ∧ (selectedFromFilters jsonFilters ≠ [] →
     selectedInterstates jsonFilters rows interstateIdx
     = selectedFromFilters jsonFilters)
  ∧ (selectedFromFilters jsonFilters = [] →
     ∀ x, x ∈ selectedInterstates jsonFilters rows interstateIdx ↔
          x ≠ "" ∧ ∃ row, row ∈ rows ∧ rowInterstate row interstateIdx = Some x)
  ∧ NoDup (selectedInterstates jsonFilters rows interstateIdx).
Proof.
  intros Hidx. split; [|split; [|split]].
  - intros x. apply selectedFromFilters_elem.
  - intros Hne. unfold selectedInterstates.
    destruct (selectedFromFilters jsonFilters); [done|]. reflexivity.
  - intros He x. unfold selectedInterstates. rewrite He. simpl.
    replace (0 <=? interstateIdx) with true by (symmetry; by apply Z.leb_le).
    rewrite selectedFromRows_elem. split.
    + intros [H|(row & Hrow & Hval & Hx)]; [by apply elem_of_nil in H|]. eauto.
    + intros (Hx & row & Hrow & Hval). right. eauto.
  - unfold selectedInterstates. destruct (_ && _).
    + apply selectedFromRows_NoDup, selectedFromFilters_NoDup.
    + apply selectedFromFilters_NoDup.
Qed.

(** C7 with a basic filter on the column "INTERSTATE" that selects " I-40 ",
    null and "I 95", and without any filter. *)
Lemma selection_precedence_witness :
  selectedInterstates [Sample.interstateFilter] Sample.threeRows 4
  = selectedFromFilters [Sample.interstateFilter]
  ∧ selectedFromFilters [Sample.interstateFilter] = ["I-40"; "I 95"]
  ∧ selectedInterstates [] Sample.threeRows 4 = ["I-40"; "I 95"].
Proof.
  split; [|split].
  - apply (selection_precedence [Sample.interstateFilter] Sample.threeRows 4).
    + lia.
    + vm_compute. discriminate.
  - reflexivity.
  - reflexivity.
Defined.

(** ** The guards of [performUpdate] *)

Section Cycle.

Variable StringToNumber : string -> number.
Variable fipsToCounty : number -> option string.

(** Case analysis on the four ways [reconcile] ends. *)
Ltac reconcile_cases :=
  unfold reconcile; cbv zeta;
  repeat match goal with
         | |- context [if ?c then _ else _] => destruct c eqn:?
         | |- context [let '(_, _) := ?p in _] => destruct p eqn:?
         end;
  simpl.

Lemma performUpdate_guarded (options : VisualUpdateOptions) (this : Visual) :
  performUpdate StringToNumber fipsToCounty options this
  = match dataViews options ≫= head, tableOf options with
    | Some dv, Some tbl =>
        if unchanged (previousTableData this) tbl then this
        else reconcile StringToNumber fipsToCounty options dv tbl this
    | _, _ => this
    end.
Proof.
  unfold performUpdate, tableOf.
  destruct (dataViews options ≫= head) as [dv|]; [|done].
  by destruct (table dv).
Qed.

Lemma reconcile_previous (options : VisualUpdateOptions) (dv : DataView)
    (tbl : DataViewTable) (this : Visual) :
  previousTableData (reconcile StringToNumber fipsToCounty options dv tbl this)
  = Some tbl.
Proof. reconcile_cases; reflexivity. Qed.

Lemma unchanged_same (tbl : DataViewTable) : unchanged (Some tbl) tbl = true.
Proof. unfold unchanged, isEqual. by apply bool_decide_eq_true. Qed.

Lemma unchanged_true (previous : option DataViewTable) (tbl : DataViewTable) :
  unchanged previous tbl = true → previous = Some tbl.
Proof.
  unfold unchanged, isEqual. destruct previous as [p|]; [|done].
  by intros ->%bool_decide_eq_true.
Qed.

(** After an update that carries a table, that table is the last one
    processed. *)
Lemma performUpdate_previous (options : VisualUpdateOptions) (this : Visual)
    (tbl : DataViewTable) :
  tableOf options = Some tbl →
  previousTableData (performUpdate StringToNumber fipsToCounty options this)
  = Some tbl.
Proof.
  intros Ht. rewrite performUpdate_guarded, Ht.
  destruct (dataViews options ≫= head) as [dv|] eqn:Hdv.
  - destruct (unchanged _ _) eqn:Hu; [by apply unchanged_true|].
    apply reconcile_previous.
  - unfold tableOf in Ht. by rewrite Hdv in Ht.
Qed.

(** An update whose table is the last one processed changes nothing. *)
Lemma performUpdate_suppressed (options : VisualUpdateOptions) (this : Visual)
    (tbl : DataViewTable) :
  tableOf options = Some tbl →
  previousTableData this = Some tbl →
  performUpdate StringToNumber fipsToCounty options this = this.
Proof.
  intros Ht Hp. rewrite performUpdate_guarded, Ht, Hp, unchanged_same.
  by destruct (dataViews options ≫= head).
Qed.

(** A call runs at most one cycle: it creates at most one feature layer. *)
Lemma performUpdate_layerSeq (options : VisualUpdateOptions) (this : Visual) :
  (layerSeq (performUpdate StringToNumber fipsToCounty options this)
   ≤ S (layerSeq this))%nat.
Proof.
  unfold performUpdate.
  destruct (dataViews options ≫= head) as [dv|]; [|lia].
  destruct (table dv) as [tbl|]; [|lia].
  destruct (unchanged _ _); [lia|].
  reconcile_cases; lia.
Qed.

(** C5: when two updates in succession carry deep-equal tables (or both
    carry none), the second one returns at the guard: the visual after the
    second call is the visual after the first, field by field, so no layer,
    style, marker or control entry is touched a second time, and the two
    calls together have run at most one cycle (they have created at most one
    feature layer). *)
Theorem unchanged_update_is_suppressed (first second : VisualUpdateOptions)
    (this : Visual) :
  tableOf first = tableOf second →
  performUpdate StringToNumber fipsToCounty second
    (performUpdate StringToNumber fipsToCounty first this)
  = performUpdate StringToNumber fipsToCounty first this
  ∧ (layerSeq (performUpdate StringToNumber fipsToCounty second
                 (performUpdate StringToNumber fipsToCounty first this))
     ≤ S (layerSeq this))%nat.
Proof.
  intros Heq.
  assert (Hsame : performUpdate StringToNumber fipsToCounty second
                    (performUpdate StringToNumber fipsToCounty first this)
                  = performUpdate StringToNumber fipsToCounty first this).
  { destruct (tableOf first) as [tbl|] eqn:Ht.
    - apply (performUpdate_suppressed _ _ tbl); [done|].
      by apply performUpdate_previous.
    - rewrite (performUpdate_guarded second), <- Heq.
      by destruct (dataViews second ≫= head). }
  split; [done|]. rewrite Hsame. apply performUpdate_layerSeq.
Qed.

(** ** The retry of a missing interstate role *)

Lemma fireTimers_idle (fuel : nat) (this : Visual) :
  timers this = [] → fireTimers StringToNumber fipsToCounty fuel this = this.
Proof. intros Ht. destruct fuel; simpl; [done|]. by rewrite Ht. Qed.

(** C6 on the code: an update whose table has no interstate column, received
    while fewer than five retries are counted, schedules one re-attempt after
    500 ms and counts one retry; when that timer fires, [performUpdate] finds
    the table equal to the one it has just stored and returns at the
    change-suppression guard.  No second re-attempt is scheduled, the counter
    stays where it is and the diagnostic of the fifth failure is never
    written. *)
Theorem retry_is_suppressed (options : VisualUpdateOptions)
    (tbl : DataViewTable) (this : Visual) :
  tableOf options = Some tbl →
  findIndex (hasRole "interstate") (default [] (columns tbl)) < 0 →
  unchanged (previousTableData this) tbl = false →
  retryCount this < 5 →
  timers this = [] →
  let scheduled := performUpdate StringToNumber fipsToCounty options this in
  timers scheduled = [(500, options)]
  ∧ retryCount scheduled = retryCount this + 1
  ∧ console scheduled
    = console this ++ [Warn (retryMessage (retryCount this + 1))]
  ∧ fireTimer StringToNumber fipsToCounty scheduled = withTimers [] scheduled
  ∧ ∀ fuel, (0 < fuel)%nat →
      fireTimers StringToNumber fipsToCounty fuel scheduled
      = withTimers [] scheduled.
Proof.
  intros Ht Hidx Hu Hretry Htimers scheduled.
  assert (Hsched : scheduled
    = {| countyLayers := countyLayers this;
         hccsLayer := hccsLayer this;
         hccsLayerAdded := hccsLayerAdded this;
         layerControl := layerControl this;
         settings_selectedMetric := settings_selectedMetric scheduled;
         previousTableData := Some tbl;
         retryCount := retryCount this + 1;
         mapLayers := mapLayers this;
         markers := markers this;
         fittedTo := fittedTo this;
         console := console this ++ [Warn (retryMessage (retryCount this + 1))];
         timers := [(500, options)];
         frames := frames this ++ [viewport options];
         layerSeq := layerSeq this |}).
  { subst scheduled. rewrite performUpdate_guarded, Ht, Hu.
    destruct (dataViews options ≫= head) as [dv|] eqn:Hdv.
    - unfold reconcile. cbv zeta.
      apply Z.ltb_lt in Hidx, Hretry. rewrite Hidx, Hretry, Htimers.
      reflexivity.
    - unfold tableOf in Ht. by rewrite Hdv in Ht. }
  assert (Hfire : fireTimer StringToNumber fipsToCounty scheduled
                  = withTimers [] scheduled).
  { unfold fireTimer. rewrite Hsched at 1. simpl.
    apply (performUpdate_suppressed _ _ tbl); [done|].
    by rewrite Hsched. }
  split; [by rewrite Hsched|]. split; [by rewrite Hsched|].
  split; [by rewrite Hsched|]. split; [done|].
  intros [|fuel] Hfuel; [lia|]. simpl.
  rewrite Hsched at 1. simpl. rewrite Hfire.
  by apply fireTimers_idle.
Qed.

(** When the interstate role is assigned the counter goes back to zero. *)
Lemma retryCount_reset (options : VisualUpdateOptions) (dv : DataView)
    (tbl : DataViewTable) (this : Visual) :
  0 ≤ findIndex (hasRole "interstate") (default [] (columns tbl)) →
  retryCount (reconcile StringToNumber fipsToCounty options dv tbl this) = 0.
Proof.
  intros Hidx. apply Z.ltb_ge in Hidx.
  unfold reconcile. cbv zeta. rewrite Hidx.
  destruct (_ || _); [done|].
  destruct (detachRemote this) as [[? ?] ?].
  by destruct (registerRemote _ _ _).
Qed.

(** A re-attempt is scheduled only while fewer than five are counted. *)
Lemma retry_bounded (options : VisualUpdateOptions) (dv : DataView)
    (tbl : DataViewTable) (this : Visual) :
  5 ≤ retryCount this →
  timers (reconcile StringToNumber fipsToCounty options dv tbl this)
  = timers this.
Proof.
  intros Hretry. apply Z.ltb_ge in Hretry.
  unfold reconcile. cbv zeta. rewrite Hretry.
  destruct (_ <? 0); [done|].
  destruct (_ || _); [done|].
  destruct (detachRemote this) as [[? ?] ?].
  by destruct (registerRemote _ _ _).
Qed.

(** ** The remote layer *)












(** ** The selected metric *)

Lemma sameButObjects_head (o1 o2 : VisualUpdateOptions) :
  sameButObjects o1 o2 →
  match dataViews o1 ≫= head, dataViews o2 ≫= head with
  | Some d1, Some d2 => table d1 = table d2
  | None, None => True
  | _, _ => False
  end.
Proof.
  intros (Hdv & _ & _).
  destruct Hdv as [l1 l2 Hl|]; simpl; [|done].
  by destruct Hl.
Qed.

Lemma reconcile_sameButMetric (o1 o2 : VisualUpdateOptions) (d1 d2 : DataView)
    (tbl : DataViewTable) (s1 s2 : Visual) :
  sameButMetric s1 s2 →
  sameButObjects o1 o2 →
  sameButMetric (reconcile StringToNumber fipsToCounty o1 d1 tbl s1)
                (reconcile StringToNumber fipsToCounty o2 d2 tbl s2).
Proof.
  intros Hs Ho.
  destruct s1, s2. unfold sameButMetric in Hs. simpl in Hs.
  destruct Hs as (? & ? & ? & ? & ? & ? & ? & ? & ? & ? & Htimers & ? & ?).
  simplify_eq.
  pose proof Ho as (_ & Hfilters & Hviewport).
  unfold reconcile, detachRemote. cbv zeta. simpl.
  rewrite Hfilters, Hviewport.
  repeat match goal with
         | |- context [if ?c then _ else _] => destruct c eqn:?
         | |- context [match ?p with Some _ => _ | None => _ end] => destruct p eqn:?
         | |- context [let '(_, _) := ?p in _] => destruct p eqn:?
         end;
    unfold sameButMetric; simpl;
    repeat split; try done;
    apply Forall2_app; [done|];
    constructor; [by split|constructor].
Qed.

Lemma performUpdate_sameButMetric (o1 o2 : VisualUpdateOptions) (s1 s2 : Visual) :
  sameButMetric s1 s2 →
  sameButObjects o1 o2 →
  sameButMetric (performUpdate StringToNumber fipsToCounty o1 s1)
                (performUpdate StringToNumber fipsToCounty o2 s2).
Proof.
  intros Hs Ho. pose proof (sameButObjects_head o1 o2 Ho) as Hhead.
  unfold performUpdate.
  destruct (dataViews o1 ≫= head) as [d1|], (dataViews o2 ≫= head) as [d2|];
    try done.
  rewrite Hhead. destruct (table d2) as [tbl|]; [|done].
  assert (Hprev : previousTableData s1 = previousTableData s2)
    by apply Hs.
  rewrite Hprev. destruct (unchanged _ _); [done|].
  by apply reconcile_sameButMetric.
Qed.

Lemma withTimers_sameButMetric (t1 t2 : list (Z * VisualUpdateOptions))
    (s1 s2 : Visual) :
  sameButMetric s1 s2 →
  Forall2 (λ a b, fst a = fst b ∧ sameButObjects (snd a) (snd b)) t1 t2 →
  sameButMetric (withTimers t1 s1) (withTimers t2 s2).
Proof.
  intros (? & ? & ? & ? & ? & ? & ? & ? & ? & ? & _ & ? & ?) Ht.
  unfold sameButMetric, withTimers. simpl. repeat split; done.
Qed.

Lemma fireTimer_sameButMetric (s1 s2 : Visual) :
  sameButMetric s1 s2 →
  sameButMetric (fireTimer StringToNumber fipsToCounty s1)
                (fireTimer StringToNumber fipsToCounty s2).
Proof.
  intros Hs.
  assert (Ht : Forall2 (λ a b, fst a = fst b ∧ sameButObjects (snd a) (snd b))
                       (timers s1) (timers s2)) by apply Hs.
  unfold fireTimer.
  destruct Ht as [|[delay1 o1] [delay2 o2] rest1 rest2 [_ Ho] Hrest]; [done|].
  simpl in Ho.
  apply performUpdate_sameButMetric; [|done].
  by apply withTimers_sameButMetric.
Qed.

(** C10: two visuals that agree on everything but the stored metric, given
    updates that agree on everything but [metadata.objects] (where
    [dataSelector.selectedMetric] lives), agree again after the cycle on the
    county styles and tooltips, the markers, the remote layer and its
    predicate, the control, the fitted view, the retry state and the
    console; the same holds when their retry timers fire.  The selected
    metric is stored and read by nothing. *)
Theorem selected_metric_noninterference (o1 o2 : VisualUpdateOptions)
    (s1 s2 : Visual) :
  sameButMetric s1 s2 →
  sameButObjects o1 o2 →
  sameButMetric (performUpdate StringToNumber fipsToCounty o1 s1)
                (performUpdate StringToNumber fipsToCounty o2 s2)
  ∧ sameButMetric (fireTimer StringToNumber fipsToCounty s1)
                  (fireTimer StringToNumber fipsToCounty s2).
Proof.
  intros Hs Ho. split.
  - by apply performUpdate_sameButMetric.
  - by apply fireTimer_sameButMetric.
Qed.

End Cycle.

(** ** The theorems on the sample data *)

(** C5 on the sample: two updates with equal tables (and different
    metadata); the first runs one cycle, the second none. *)
Lemma unchanged_update_is_suppressed_witness :
  Sample.update Sample.personsMetric (Sample.update Sample.crashesUpdate Sample.start)
  = Sample.update Sample.crashesUpdate Sample.start
  ∧ layerSeq (Sample.update Sample.crashesUpdate Sample.start) = 1%nat.
Proof.
  split.
  - apply (unchanged_update_is_suppressed Sample.StringToNumber Sample.fipsToCounty).
    reflexivity.
  - reflexivity.
Defined.

(** C6 on the sample: a first update without the interstate column. *)
Lemma retry_is_suppressed_witness :
  timers (Sample.update Sample.roleless Sample.start) = [(500, Sample.roleless)]
  ∧ retryCount (Sample.settle 10 (Sample.update Sample.roleless Sample.start)) = 1
  ∧ console (Sample.settle 10 (Sample.update Sample.roleless Sample.start))
    = [Warn "INTERSTATE role not assigned. Retry 1/5..."]
  ∧ timers (Sample.settle 10 (Sample.update Sample.roleless Sample.start)) = [].
Proof.
  destruct (retry_is_suppressed Sample.StringToNumber Sample.fipsToCounty
              Sample.roleless
              {| columns := Some (Sample.columnsOf false);
                 rows := Some Sample.threeRows |}
              Sample.start)
    as (Htimers & Hcount & Hconsole & _ & Hsettle).
  - reflexivity.
  - vm_compute. reflexivity.
  - reflexivity.
  - vm_compute. reflexivity.
  - reflexivity.
  - unfold Sample.settle, Sample.update.
    rewrite (Hsettle 10%nat) by lia.
    split; [exact Htimers|]. split; [exact Hcount|]. split; [exact Hconsole|].
    reflexivity.
Defined.


(** C10 on the sample: the same update with the metric "crashes" and with
    the metric "persons". *)
Lemma selected_metric_noninterference_witness :
  sameButMetric (Sample.update Sample.crashesUpdate Sample.start)
                (Sample.update Sample.personsMetric Sample.start).
Proof.
  apply (selected_metric_noninterference Sample.StringToNumber
           Sample.fipsToCounty Sample.crashesUpdate Sample.personsMetric
           Sample.start Sample.start).
  - unfold sameButMetric. repeat split; constructor.
  - unfold sameButObjects. repeat split; repeat constructor.
Defined.

(** * Further properties of the code *)

(** ** Role binding *)

Lemma findIndexFrom_spec {A} (p : A → bool) (xs : list A) (k : Z) :
  0 ≤ k →
  (findIndexFrom p xs k = -1 ∧ ∀ x, x ∈ xs → p x = false)
  ∨ (∃ n x, findIndexFrom p xs k = k + Z.of_nat n
            ∧ xs !! n = Some x ∧ p x = true
            ∧ ∀ j y, (j < n)%nat → xs !! j = Some y → p y = false).
Proof.
  revert k. induction xs as [|a xs IH]; intros k Hk; simpl.
  - left. split; [done|]. intros x Hx. by apply elem_of_nil in Hx.
  - destruct (p a) eqn:Hpa.
    + right. exists 0%nat, a. split; [lia|]. split; [done|]. split; [done|].
      intros j y Hj. lia.
    + destruct (IH (k + 1) ltac:(lia)) as [[Hnone Hall]|(n & x & Hi & Hx & Hpx & Hbefore)].
      * left. split; [done|]. intros x [->|Hx]%elem_of_cons; auto.
      * right. exists (S n), x. split; [lia|]. split; [done|]. split; [done|].
        intros [|j] y Hj Hy; simpl in Hy; [by simplify_eq|].
        apply (Hbefore j); [lia|done].
Qed.

(** X1: the index bound to a role is -1 exactly when no column carries the
    role, and otherwise the position of the first column that carries it. *)
Theorem role_binding (name : string) (tbl : DataViewTable) :
  (roleIndex name tbl = -1
   ∧ ∀ c, c ∈ default [] (columns tbl) → hasRole name c = false)
  ∨ (∃ n c, roleIndex name tbl = Z.of_nat n
            ∧ default [] (columns tbl) !! n = Some c
            ∧ hasRole name c = true
            ∧ ∀ j c', (j < n)%nat → default [] (columns tbl) !! j = Some c' →
                      hasRole name c' = false).
Proof.
  unfold roleIndex, findIndex.
  destruct (findIndexFrom_spec (hasRole name) (default [] (columns tbl)) 0
              ltac:(lia)) as [H|(n & c & Hi & H)].
  - by left.
  - right. exists n, c. split; [lia|done].
Qed.

(** ** Classification *)

Lemma numLe_trans (a b c : number) :
  numLe a b = true → numLe b c = true → numLe a c = true.
Proof.
  destruct a, b, c; simpl; try done.
  intros ?%Z.leb_le ?%Z.leb_le. apply Z.leb_le. lia.
Qed.

Lemma classOf_monotone (bs : list number) (a b : number) :
  numLe a b = true → (classOf bs a ≤ classOf bs b)%nat.
Proof.
  intros Hab. induction bs as [|b0 bs IH].
  - unfold classOf. simpl. lia.
  - rewrite !classOf_cons. destruct (numLe b b0) eqn:Hb.
    + by rewrite (numLe_trans a b b0).
    + destruct (numLe a b0); lia.
Qed.

Lemma classOf_NaN (bs : list number) : classOf bs NaN = length bs.
Proof.
  induction bs as [|b0 bs IH]; [done|].
  rewrite classOf_cons. simpl. by rewrite IH.
Qed.

(** X2: the classification is monotone, whatever the breakpoints: a larger
    value never gets a lower class.  Values that are zero or negative are
    transparent on both ramps, and NaN compares false everywhere and lands
    in the top class. *)
Theorem classification_monotone (bs : list number) (a b : number) :
  numLe a b = true →
  (classOf bs a ≤ classOf bs b)%nat
  ∧ classOf bs NaN = length bs
  ∧ getColor NaN = "#800026" ∧ getChoro NaN = "#a50026"
  ∧ (numLe b (Fin 0) = true →
     getColor a = "rgba(0,0,0,0)" ∧ getChoro a = "rgba(0,0,0,0)").
Proof.
  intros Hab. split; [by apply classOf_monotone|].
  split; [apply classOf_NaN|]. split; [done|]. split; [done|].
  intros Hb. pose proof (numLe_trans a b (Fin 0) Hab Hb) as Ha.
  unfold getColor, getChoro. simpl. by rewrite Ha.
Qed.

Lemma classification_monotone_witness :
  (classOf getColor_breaks (Fin 120) ≤ classOf getColor_breaks (Fin 500))%nat.
Proof.
  by apply (classification_monotone getColor_breaks (Fin 120) (Fin 500)).
Defined.

(** ** Normal forms of the query builder *)

Lemma replaceWsRuns_clean (inRun : bool) (s : string) :
  hasWhiteSpace (replaceWsRuns inRun s) = false.
Proof.
  revert inRun. induction s as [|c s IH]; intros inRun; simpl; [done|].
  destruct (isWhiteSpace c) eqn:Hc.
  - destruct inRun; simpl; by rewrite ?IH.
  - simpl. by rewrite Hc, IH.
Qed.

Lemma replaceWsRuns_id (inRun : bool) (s : string) :
  hasWhiteSpace s = false → replaceWsRuns inRun s = s.
Proof.
  revert inRun. induction s as [|c s IH]; intros inRun Hs; simpl in *; [done|].
  apply orb_false_iff in Hs as [Hc Hs]. rewrite Hc. by rewrite IH.
Qed.

Lemma trimStart_id (s : string) : hasWhiteSpace s = false → trimStart s = s.
Proof.
  destruct s as [|c s]; simpl; [done|].
  intros [Hc _]%orb_false_iff. by rewrite Hc.
Qed.

Lemma trimEnd_id (s : string) : hasWhiteSpace s = false → trimEnd s = s.
Proof.
  induction s as [|c s IH]; simpl; [done|].
  intros [Hc Hs]%orb_false_iff. rewrite (IH Hs), Hc. by destruct s.
Qed.

Lemma normalize_id (s : string) : hasWhiteSpace s = false → normalize s = s.
Proof.
  intros Hs. unfold normalize, trim.
  by rewrite (trimStart_id s Hs), (trimEnd_id s Hs), replaceWsRuns_id.
Qed.

Lemma safeInterstates_id (toks : list string) :
  Forall (λ tok, tok ∈ VALID_ROUTES) toks → safeInterstates toks = toks.
Proof.
  unfold safeInterstates. induction 1 as [|tok toks Htok _ IH]; [done|].
  assert (Hn : normalize tok = tok).
  { apply normalize_id. revert Htok. unfold VALID_ROUTES.
    rewrite !elem_of_cons, elem_of_nil.
    intros [->|[->|[->|[->|[->|[]]]]]]; reflexivity. }
  rewrite fmap_cons, Hn, filter_cons_True by done. by f_equal.
Qed.

(** X3: a normalized selection holds no white space, normalizing is
    idempotent, and compiling the survivors again gives the same predicate:
    the sanitizer is a projection. *)
Theorem normalize_projection (raw : string) (selected : list string) :
  hasWhiteSpace (normalize raw) = false
  ∧ normalize (normalize raw) = normalize raw
  ∧ safeInterstates (safeInterstates selected) = safeInterstates selected
  ∧ whereOf (safeInterstates selected) = whereOf selected.
Proof.
  assert (Hclean : hasWhiteSpace (normalize raw) = false)
    by apply replaceWsRuns_clean.
  assert (Hsafe : safeInterstates (safeInterstates selected)
                  = safeInterstates selected).
  { apply safeInterstates_id, Forall_forall. intros tok Htok.
    by apply safeInterstates_spec in Htok as [? _]. }
  split; [done|]. split; [by apply normalize_id|]. split; [done|].
  unfold whereOf. by rewrite Hsafe.
Qed.

(** ** Trimmed selections *)

Lemma trimEnd_idempotent (s : string) : trimEnd (trimEnd s) = trimEnd s.
Proof.
  induction s as [|c s IH]; simpl; [done|].
  destruct (trimEnd s) as [|d t] eqn:Ht.
  - destruct (isWhiteSpace c) eqn:Hc; simpl; [done|]. by rewrite Hc.
  - change (trimEnd (String c (String d t))) with
      (match trimEnd (String d t) with
       | EmptyString => if isWhiteSpace c then EmptyString else String c EmptyString
       | u => String c u
       end).
    by rewrite IH.
Qed.

Lemma trimEnd_head (c : ascii) (s : string) :
  isWhiteSpace c = false → ∃ t, trimEnd (String c s) = String c t.
Proof.
  intros Hc. simpl. destruct (trimEnd s); rewrite ?Hc; eauto.
Qed.

Lemma trimStart_head (s : string) :
  trimStart s = EmptyString
  ∨ ∃ c t, trimStart s = String c t ∧ isWhiteSpace c = false.
Proof.
  induction s as [|c s IH]; simpl; [by left|].
  destruct (isWhiteSpace c) eqn:Hc; [done|]. right. eauto.
Qed.

Lemma trim_idempotent (s : string) : trim (trim s) = trim s.
Proof.
  unfold trim. destruct (trimStart_head s) as [->|(c & t & -> & Hc)]; [done|].
  destruct (trimEnd_head c t Hc) as [u Hu].
  rewrite Hu. simpl trimStart. rewrite Hc, <- Hu. apply trimEnd_idempotent.
Qed.

(** X4: every selected interstate is a trimmed string, whether it came from
    the filters or from the rows, and those that came from the rows are not
    empty. *)
Theorem selection_is_trimmed (jsonFilters : list IFilter)
    (rows : list (list PrimitiveValue)) (interstateIdx : Z) (x : string) :
  x ∈ selectedInterstates jsonFilters rows interstateIdx →
  trim x = x ∧ (selectedFromFilters jsonFilters = [] → x ≠ "").
Proof.
  unfold selectedInterstates.
  destruct (selectedFromFilters jsonFilters) as [|y ys] eqn:Hf.
  - destruct (_ && _).
    + intros [H|(row & _ & Hrow & Hne)]%selectedFromRows_elem;
        [by apply elem_of_nil in H|].
      split; [|done]. unfold rowInterstate in Hrow.
      destruct (isNullish _); [done|]. injection Hrow as <-.
      apply trim_idempotent.
    + intros H. by apply elem_of_nil in H.
  - simpl. rewrite <- Hf.
    intros (f & _ & _ & _ & val & _ & _ & ->)%selectedFromFilters_elem.
    split; [apply trim_idempotent|]. by rewrite Hf.
Qed.

Lemma selection_is_trimmed_witness :
  trim "I 95" = "I 95".
Proof.
  apply (selection_is_trimmed [Sample.interstateFilter] Sample.threeRows 4 "I 95").
  apply list_elem_of_In. vm_compute. right. left. reflexivity.
Defined.

(** ** Padded keys and the fitted view *)

Lemma length_app_str (a b : string) :
  String.length (a +:+ b) = (String.length a + String.length b)%nat.
Proof. induction a as [|c a IH]; [done|]. rewrite app_cons. simpl. by rewrite IH. Qed.

Lemma length_repeatChar (n : nat) (c : ascii) :
  String.length (repeatChar n c) = n.
Proof. induction n as [|n IH]; simpl; by rewrite ?IH. Qed.

Lemma padStart_length (n : nat) (c : ascii) (s : string) :
  String.length (padStart n c s) = Nat.max n (String.length s).
Proof. unfold padStart. rewrite length_app_str, length_repeatChar. lia. Qed.

Lemma paddedKey_length (r : list PrimitiveValue) (fipsIdx : Z) :
  (5 ≤ String.length (paddedKey r fipsIdx))%nat.
Proof. unfold paddedKey. rewrite padStart_length. lia. Qed.

Lemma filteredFIPS_elem (rows : list (list PrimitiveValue)) (fipsIdx : Z)
    (f : string) :
  f ∈ filteredFIPS rows fipsIdx ↔ ∃ r, r ∈ rows ∧ paddedKey r fipsIdx = f.
Proof.
  unfold filteredFIPS.
  rewrite (fold_left_elem _ (λ r x, paddedKey r fipsIdx = x)).
  - split; [|by right]. intros [H|H]; [by apply elem_of_nil in H|done].
  - intros sel r x. case_decide as He.
    + pose proof (paddedKey_length r fipsIdx) as Hlen. rewrite He in Hlen.
      simpl in Hlen. lia.
    + rewrite setAdd_elem. split; intros [?|?]; auto.
Qed.

Lemma filteredFIPS_NoDup (rows : list (list PrimitiveValue)) (fipsIdx : Z) :
  NoDup (filteredFIPS rows fipsIdx).
Proof.
  unfold filteredFIPS. apply fold_left_NoDup; [|constructor].
  intros sel r Hsel. case_decide; [done|]. by apply setAdd_NoDup.
Qed.

Lemma NoDup_filter_bool {A} (p : A → bool) (l : list A) :
  NoDup l → NoDup (List.filter p l).
Proof.
  induction 1 as [|x l Hx _ IH]; simpl; [constructor|].
  destruct (p x); [|done]. constructor; [|done].
  rewrite list_elem_of_In, filter_In, <- list_elem_of_In. by intros [? _].
Qed.

(** X5: the view is fitted to the counties named by the rows, each once:
    a key contributes its bounds exactly when it is the zero-padded county
    key of some row and a county path with valid bounds is stored under it.
    A county stored under a key of fewer than five characters therefore
    never contributes. *)
Theorem fitted_counties (layers : gmap string CountyPath)
    (rows : list (list PrimitiveValue)) (fipsIdx : Z) (f : string) :
  NoDup (countyBounds layers (filteredFIPS rows fipsIdx))
  ∧ (f ∈ countyBounds layers (filteredFIPS rows fipsIdx) ↔
     (∃ r, r ∈ rows ∧ paddedKey r fipsIdx = f)
     ∧ ∃ layer, layers !! f = Some layer ∧ boundsValid layer = true)
  ∧ ((String.length f < 5)%nat →
     f ∉ countyBounds layers (filteredFIPS rows fipsIdx)).
Proof.
  assert (Hiff : f ∈ countyBounds layers (filteredFIPS rows fipsIdx) ↔
     (∃ r, r ∈ rows ∧ paddedKey r fipsIdx = f)
     ∧ ∃ layer, layers !! f = Some layer ∧ boundsValid layer = true).
  { unfold countyBounds. rewrite list_elem_of_In, filter_In, <- list_elem_of_In.
    rewrite filteredFIPS_elem. split.
    - intros [Hr Hl]. split; [done|].
      destruct (layers !! f) as [layer|]; [eauto|done].
    - intros [Hr (layer & Hl & Hb)]. split; [done|]. by rewrite Hl. }
  split; [|split; [done|]].
  - unfold countyBounds. apply NoDup_filter_bool, filteredFIPS_NoDup.
  - intros Hshort [(r & _ & <-) _]%Hiff.
    pose proof (paddedKey_length r fipsIdx). lia.
Qed.

Lemma fitted_counties_witness :
  "1001" ∉ countyBounds
             {[ "1001" := {| tooltip := None; tooltipBinds := 0;
                             fillColor := None; hoverHandlers := 0;
                             boundsValid := true |} ]}
             (filteredFIPS [Sample.shortKeyRow] 3).
Proof.
  apply fitted_counties. simpl. lia.
Defined.

(** ** Markers *)

(** X6: the marker set is built from the rows alone, in row order: there is
    one marker for each row whose latitude and longitude are numbers and
    none for the others; a marker's weight is its value, is never NaN, and
    its county key has at least five characters. *)
Theorem markers_from_rows (StringToNumber : string → number)
    (rows : list (list PrimitiveValue)) (latIdx lonIdx crashIdx fipsIdx : Z) :
  (length (buildMarkers StringToNumber rows latIdx lonIdx crashIdx fipsIdx)
     = length (List.filter
                 (λ r, negb (isNaN (toNumber StringToNumber (at_ r latIdx))
                             || isNaN (toNumber StringToNumber (at_ r lonIdx))))
                 rows))
  ∧ ∀ m, m ∈ buildMarkers StringToNumber rows latIdx lonIdx crashIdx fipsIdx →
         isNaN (lat m) = false ∧ isNaN (lon m) = false
         ∧ weight m = data_value m ∧ weight m ≠ NaN
         ∧ (5 ≤ String.length (data_fips m))%nat
         ∧ ∃ r, r ∈ rows
                ∧ lat m = toNumber StringToNumber (at_ r latIdx)
                ∧ lon m = toNumber StringToNumber (at_ r lonIdx)
                ∧ weight m = rowWeight StringToNumber r crashIdx
                ∧ data_fips m = paddedKey r fipsIdx.
Proof.
  split.
  - unfold buildMarkers. induction rows as [|r rows IH]; [done|].
    change (omap ?f (r :: rows))
      with (match f r with Some y => y :: omap f rows | None => omap f rows end).
    change (List.filter ?p (r :: rows))
      with (if p r then r :: List.filter p rows else List.filter p rows).
    unfold markerOf at 1. cbv beta.
    destruct (isNaN _ || isNaN _); simpl; by rewrite IH.
  - intros m (r & Hr & Hm)%list_elem_of_omap. unfold markerOf in Hm.
    destruct (isNaN _ || isNaN _) eqn:Hnan; [done|].
    apply orb_false_iff in Hnan as [Hlat Hlon].
    injection Hm as <-. simpl.
    split; [done|]. split; [done|]. split; [done|].
    split; [apply rowWeight_not_NaN|]. split; [apply paddedKey_length|].
    eauto 10.
Qed.

(** ** What one cycle draws *)

Lemma runsFullCycle_iff (tbl : DataViewTable) :
  runsFullCycle tbl = true ↔
  (findIndex (hasRole "interstate") (default [] (columns tbl)) <? 0) = false
  ∧ ((Z.of_nat (length (default [] (rows tbl))) =? 0)
     || existsb (λ i, i <? 0)
          [findIndex (hasRole "y") (default [] (columns tbl));
           findIndex (hasRole "x") (default [] (columns tbl));
           findIndex (hasRole "crashWeight") (default [] (columns tbl));
           findIndex (hasRole "countyFIPS") (default [] (columns tbl))]) = false.
Proof.
  unfold runsFullCycle, roleIndex. simpl.
  rewrite !andb_true_iff, !orb_false_iff, negb_true_iff, !Z.leb_le, !Z.ltb_ge.
  tauto.
Qed.

Section Drawing.

Variable StringToNumber : string -> number.
Variable fipsToCounty : number -> option string.

(** The cycle that cannot draw: everything drawn stays, the table is
    remembered. *)
Lemma reconcile_abort (options : VisualUpdateOptions) (dv : DataView)
    (tbl : DataViewTable) (this : Visual) :
  runsFullCycle tbl = false →
  surfaceOf (reconcile StringToNumber fipsToCounty options dv tbl this)
  = surfaceOf this
  ∧ layerSeq (reconcile StringToNumber fipsToCounty options dv tbl this)
    = layerSeq this.
Proof.
  intros Hno. unfold reconcile. cbv zeta.
  destruct (_ <? 0) eqn:Hi; [by destruct (_ <? 5)|].
  destruct (_ || _) eqn:Hc; [done|].
  assert (runsFullCycle tbl = true) by (by apply runsFullCycle_iff).
  congruence.
Qed.

(** The cycle that draws, field by field. *)
Lemma reconcile_full (options : VisualUpdateOptions) (dv : DataView)
    (tbl : DataViewTable) (this : Visual) :
  runsFullCycle tbl = true →
  let rows := default [] (rows tbl) in
  let totals := crashByFIPS StringToNumber rows (roleIndex "countyFIPS" tbl)
                  (roleIndex "crashWeight" tbl) in
  let selected := selectedInterstates (jsonFilters options) rows
                    (roleIndex "interstate" tbl) in
  let fresh := FeatureLayer (layerSeq this) (whereOf selected) in
  let next := reconcile StringToNumber fipsToCounty options dv tbl this in
  countyLayers next
  = map_imap (λ f layer, Some (restyleCounty StringToNumber fipsToCounty totals f layer))
             (countyLayers this)
  ∧ markers next
    = buildMarkers StringToNumber rows (roleIndex "y" tbl) (roleIndex "x" tbl)
        (roleIndex "crashWeight" tbl) (roleIndex "countyFIPS" tbl)
  ∧ hccsLayer next = Some fresh
  ∧ mapLayers next = addLayer fresh (detachRemote this).1.1
  ∧ (layerControl next, hccsLayerAdded next)
    = registerRemote fresh (detachRemote this).1.2 (detachRemote this).2
  ∧ layerSeq next = S (layerSeq this)
  ∧ retryCount next = 0.
Proof.
  intros [Hi Hc]%runsFullCycle_iff. unfold roleIndex. cbv zeta.
  unfold reconcile. cbv zeta. rewrite Hi, Hc.
  destruct (detachRemote this) as [[layers control] added].
  destruct (registerRemote _ control added) eqn:Hreg. simpl.
  repeat split. exact (eq_sym Hreg).
Qed.

(** X7: an update that cannot be drawn (its interstate, latitude,
    longitude, weight or county role is missing, or it has no row) changes
    nothing that is drawn: county paths, markers, remote layer, control and
    fitted view stay as they were.  Its table is remembered all the same. *)
Theorem undrawable_update_keeps_surface (options : VisualUpdateOptions)
    (tbl : DataViewTable) (this : Visual) :
  tableOf options = Some tbl →
  runsFullCycle tbl = false →
  surfaceOf (performUpdate StringToNumber fipsToCounty options this)
  = surfaceOf this
  ∧ layerSeq (performUpdate StringToNumber fipsToCounty options this)
    = layerSeq this
  ∧ previousTableData (performUpdate StringToNumber fipsToCounty options this)
    = Some tbl.
Proof.
  intros Ht Hno.
  split; [|split; [|by apply performUpdate_previous]];
    rewrite performUpdate_guarded, Ht;
    destruct (dataViews options ≫= head) as [dv|]; try done;
    destruct (unchanged _ _); try done;
    by apply reconcile_abort.
Qed.



(** X9: restyling a county again with the same totals does not bind its
    tooltip again and leaves text and fill as they are, but it adds two more
    hover handlers: the handlers of earlier cycles are never removed. *)
Theorem restyle_again (totals : gmap string number) (f : string)
    (layer : CountyPath) :
  let once := restyleCounty StringToNumber fipsToCounty totals f layer in
  let twice := restyleCounty StringToNumber fipsToCounty totals f once in
  tooltipBinds twice = tooltipBinds once
  ∧ tooltip twice = tooltip once
  ∧ fillColor twice = fillColor once
  ∧ (tooltipBinds once ≤ S (tooltipBinds layer))%nat
  ∧ hoverHandlers once = S (S (hoverHandlers layer))
  ∧ hoverHandlers twice = S (S (S (S (hoverHandlers layer)))).
Proof.
  unfold restyleCounty. simpl.
  rewrite bool_decide_eq_true_2 by done. simpl.
  repeat split. destruct (negb _); lia.
Qed.

End Drawing.

(** ** The map over the lifetime of the visual *)

Section Lifetime.

Variable StringToNumber : string -> number.
Variable fipsToCounty : number -> option string.
Variable counties : list Feature.

Lemma detachRemote_exact (this : Visual) :
  exactShape this →
  detachRemote this
  = ([TileLayer; PruneCluster; CountiesLayer], Some baseControl, false).
Proof.
  intros (Hmap & Hctl & Hflag & Hwhere). unfold detachRemote, remoteLayers in *.
  destruct (hccsLayer this) as [old|].
  - apply Forall_cons in Hwhere as [(id & selected & ->) _].
    rewrite Hmap, Hctl, Hflag. unfold hasLayer.
    rewrite bool_decide_eq_true_2 by (apply elem_of_app; right; left).
    rewrite bool_decide_eq_true_2 by done.
    unfold removeLayer. simpl.
    rewrite !filter_cons_True by done.
    by rewrite filter_cons_False, filter_nil by (intros H; by apply H).
  - by rewrite Hmap, Hctl, Hflag.
Qed.

Lemma reconcile_exactShape (options : VisualUpdateOptions) (dv : DataView)
    (tbl : DataViewTable) (this : Visual) :
  exactShape this →
  exactShape (reconcile StringToNumber fipsToCounty options dv tbl this).
Proof.
  intros Hshape. destruct (runsFullCycle tbl) eqn:Hfull.
  - destruct (reconcile_full StringToNumber fipsToCounty options dv tbl this Hfull)
      as (_ & _ & Hhccs & Hmap & Hctl & _).
    rewrite (detachRemote_exact this Hshape) in Hmap, Hctl. simpl in Hmap, Hctl.
    injection Hctl as Hctl Hflag.
    unfold exactShape, remoteLayers. rewrite Hhccs, Hmap, Hctl, Hflag.
    split; [|split; [done|split; [done|]]].
    + unfold addLayer. rewrite decide_False; [done|].
      rewrite !elem_of_cons, elem_of_nil. by intros [?|[?|[?|[]]]].
    + repeat constructor. eauto.
  - destruct (reconcile_abort StringToNumber fipsToCounty options dv tbl this Hfull)
      as [Hsurface _].
    unfold surfaceOf in Hsurface. injection Hsurface as _ Hhccs Hflag Hctl Hmap _ _.
    unfold exactShape, remoteLayers in *. by rewrite Hhccs, Hflag, Hctl, Hmap.
Qed.

Lemma performUpdate_exactShape (options : VisualUpdateOptions) (this : Visual) :
  exactShape this →
  exactShape (performUpdate StringToNumber fipsToCounty options this).
Proof.
  intros Hshape. unfold performUpdate.
  destruct (dataViews options ≫= head) as [dv|]; [|done].
  destruct (table dv) as [tbl|]; [|done].
  destruct (unchanged _ _); [done|].
  by apply reconcile_exactShape.
Qed.

Lemma reachable_exactShape (this : Visual) :
  reachable StringToNumber fipsToCounty counties this → exactShape this.
Proof.
  induction 1 as [|options this _ IH|this _ IH].
  - unfold exactShape, remoteLayers. simpl. repeat split. constructor.
  - by apply performUpdate_exactShape.
  - unfold fireTimer. destruct (timers this) as [|[delay options] rest]; [done|].
    by apply performUpdate_exactShape.
Qed.

(** X10: in every visual reached from the constructor by update cycles and
    retry timers, the map holds the tile, cluster and county layers and,
    after them, the current remote layer and no other; the control lists
    "Incidents", "Counties" and, for that same layer, "High Crash
    Corridors"; the flag is set exactly when there is a remote layer; and
    every string literal of the predicate of a layer on the map is an
    allowed route. *)
Theorem map_and_control_shape (this : Visual) :
  reachable StringToNumber fipsToCounty counties this →
  mapLayers this = [TileLayer; PruneCluster; CountiesLayer] ++ remoteLayers this
  ∧ layerControl this
    = Some ([("Incidents", PruneCluster); ("Counties", CountiesLayer)]
            ++ map (λ l, ("High Crash Corridors", l)) (remoteLayers this))
  ∧ hccsLayerAdded this = bool_decide (hccsLayer this ≠ None)
  ∧ ∀ l w, l ∈ mapLayers this → whereClause l = Some w →
           Forall (λ tok, tok ∈ VALID_ROUTES) (quotedLiterals w).
Proof.
  intros (Hmap & Hctl & Hflag & Hwhere)%reachable_exactShape.
  split; [done|]. split; [done|]. split.
  - rewrite Hflag. unfold remoteLayers. by destruct (hccsLayer this).
  - intros l w Hl Hw. rewrite Hmap in Hl.
    apply elem_of_app in Hl as [Hl|Hl].
    + repeat (apply elem_of_cons in Hl as [->|Hl]); try done.
      by apply elem_of_nil in Hl.
    + rewrite Forall_forall in Hwhere.
      destruct (Hwhere l Hl) as (id & selected & ->).
      injection Hw as <-. rewrite whereOf_literals.
      apply Forall_forall. intros tok Htok.
      by apply safeInterstates_spec in Htok as [? _].
Qed.

(** *** Retries *)

(** What a cycle does to the retry state: it leaves the timers alone and
    keeps or clears the counter, or it counts one retry and schedules one
    re-attempt of these options, which it does only below five. *)
Lemma reconcile_retry_cases (options : VisualUpdateOptions) (dv : DataView)
    (tbl : DataViewTable) (this : Visual) :
  let next := reconcile StringToNumber fipsToCounty options dv tbl this in
  (timers next = timers this
   ∧ (retryCount next = retryCount this ∨ retryCount next = 0))
  ∨ (timers next = timers this ++ [(500, options)]
     ∧ retryCount next = retryCount this + 1
     ∧ retryCount this < 5).
Proof.
  unfold reconcile. cbv zeta.
  destruct (_ <? 0).
  - destruct (retryCount this <? 5) eqn:Hlt; simpl.
    + right. apply Z.ltb_lt in Hlt. by repeat split.
    + left. split; [done|by left].
  - destruct (_ || _); [left; split; [done|by right]|].
    destruct (detachRemote this) as [[? ?] ?].
    destruct (registerRemote _ _ _). left. split; [done|by right].
Qed.

Lemma performUpdate_retry_cases (options : VisualUpdateOptions) (this : Visual) :
  let next := performUpdate StringToNumber fipsToCounty options this in
  (timers next = timers this
   ∧ (retryCount next = retryCount this ∨ retryCount next = 0))
  ∨ (timers next = timers this ++ [(500, options)]
     ∧ retryCount next = retryCount this + 1
     ∧ retryCount this < 5).
Proof.
  unfold performUpdate.
  destruct (dataViews options ≫= head) as [dv|]; [|left; split; [done|by left]].
  destruct (table dv) as [tbl|]; [|left; split; [done|by left]].
  destruct (unchanged _ _); [left; split; [done|by left]|].
  apply reconcile_retry_cases.
Qed.

Lemma retry_counter_bounded_aux (this : Visual) :
  reachable StringToNumber fipsToCounty counties this →
  0 ≤ retryCount this ≤ 5
  ∧ Forall (λ t, fst t = 500) (timers this).
Proof.
  induction 1 as [|options this _ [IHc IHt]|this _ [IHc IHt]].
  - simpl. split; [lia|constructor].
  - destruct (performUpdate_retry_cases options this)
      as [[-> [-> | ->]]|(-> & -> & Hlt)]; try (split; [lia|done]).
    split; [lia|]. apply Forall_app. split; [done|]. by repeat constructor.
  - unfold fireTimer. destruct (timers this) as [|[delay options] rest] eqn:Ht;
      [by rewrite Ht|].
    apply Forall_cons in IHt as [_ IHt].
    destruct (performUpdate_retry_cases options (withTimers rest this))
      as [[-> [-> | ->]]|(-> & -> & Hlt)]; simpl in *;
      try (split; [lia|done]).
    split; [lia|]. apply Forall_app. split; [done|]. by repeat constructor.
Qed.

(** X11: over the lifetime of the visual the retry counter stays between 0
    and 5 and every pending timer is a 500 ms re-attempt; a cycle that finds
    the interstate role missing when five retries are counted writes the
    diagnostic, schedules nothing and leaves the counter at five. *)
Theorem retry_counter_bounded (this : Visual) :
  reachable StringToNumber fipsToCounty counties this →
  0 ≤ retryCount this ≤ 5
  ∧ Forall (λ t, fst t = 500) (timers this)
  ∧ ∀ options dv tbl,
      roleIndex "interstate" tbl < 0 →
      retryCount this = 5 →
      let next := reconcile StringToNumber fipsToCounty options dv tbl this in
      console next = console this ++ [Error exhaustedMessage]
      ∧ timers next = timers this
      ∧ retryCount next = 5.
Proof.
  intros Hreach.
  destruct (retry_counter_bounded_aux this Hreach) as [Hc Ht].
  split; [done|]. split; [done|].
  intros options dv tbl Hidx Hfive. unfold roleIndex in Hidx.
  apply Z.ltb_lt in Hidx. unfold reconcile. cbv zeta.
  rewrite Hidx, Hfive. simpl. done.
Qed.

Lemma fireTimers_drains (fuel : nat) (this : Visual) :
  0 ≤ retryCount this ≤ 5 →
  6 * Z.of_nat (length (timers this)) + (5 - retryCount this) ≤ Z.of_nat fuel →
  timers (fireTimers StringToNumber fipsToCounty fuel this) = [].
Proof.
  revert this. induction fuel as [|fuel IH]; intros this Hc Hfuel.
  - simpl. destruct (timers this); [done|]. simpl in Hfuel. lia.
  - simpl. destruct (timers this) as [|[delay options] rest] eqn:Ht;
      [by rewrite Ht|].
    simpl in Hfuel. unfold fireTimer. rewrite Ht.
    pose proof (performUpdate_retry_cases options (withTimers rest this)) as Hcases.
    simpl in Hcases.
    destruct Hcases as [[Htimers [Hcount|Hcount]]|(Htimers & Hcount & Hlt)];
      apply IH; rewrite ?Htimers, ?Hcount, ?length_app; simpl; lia.
Qed.

(** X12: pending re-attempts always die out.  From any visual reached over
    the lifetime, firing timers until none is pending ends within six
    firings per pending timer plus five: a re-attempt is scheduled only by
    counting a retry, and the counter stops at five. *)
Theorem retries_die_out (this : Visual) :
  reachable StringToNumber fipsToCounty counties this →
  timers (fireTimers StringToNumber fipsToCounty
            (6 * length (timers this) + 5) this) = [].
Proof.
  intros [Hc _]%retry_counter_bounded_aux.
  apply fireTimers_drains; [done|]. lia.
Qed.

(** *** County paths *)




End Lifetime.

(** X10 to X13 on the sample: two updates in a row, then one without the
    interstate column and the timers it leaves. *)
Lemma map_and_control_shape_witness :
  layerControl (Sample.update Sample.personsUpdate
                  (Sample.update Sample.crashesUpdate Sample.start))
  = Some [("Incidents", PruneCluster); ("Counties", CountiesLayer);
          ("High Crash Corridors", FeatureLayer 1 "RouteName IN ('I-40', 'I-95')")].
Proof.
  refine (proj1 (proj2 (map_and_control_shape Sample.StringToNumber
                          Sample.fipsToCounty Sample.counties _ _))).
  apply reachable_update, reachable_update, reachable_constructor.
Defined.

Lemma retry_counter_bounded_witness :
  0 ≤ retryCount (Sample.update Sample.roleless Sample.start) ≤ 5.
Proof.
  refine (proj1 (retry_counter_bounded Sample.StringToNumber
                   Sample.fipsToCounty Sample.counties _ _)).
  apply reachable_update, reachable_constructor.
Defined.

Lemma retries_die_out_witness :
  timers (Sample.settle 11 (Sample.update Sample.roleless Sample.start)) = [].
Proof.
  apply (retries_die_out Sample.StringToNumber Sample.fipsToCounty
           Sample.counties (Sample.update Sample.roleless Sample.start)).
  apply reachable_update, reachable_constructor.
Defined.


(** ** Conservation of the weights *)





Section Conservation.

Variable StringToNumber : string -> number.




Lemma rows_with_county_none (rows : list (list PrimitiveValue)) (fipsIndex : Z) :
  fipsIndex < 0 →
  List.filter (λ r, negb (isNullish (at_ r fipsIndex))) rows = [].
Proof.
  intros Hneg. apply Z.ltb_lt in Hneg.
  induction rows as [|r rows IH]; [done|]. simpl.
  unfold at_ at 1. by rewrite Hneg.
Qed.

Lemma rows_with_county_all (rows : list (list PrimitiveValue)) (fipsIndex : Z) :
  Forall (λ r, isNullish (at_ r fipsIndex) = false) rows →
  List.filter (λ r, negb (isNullish (at_ r fipsIndex))) rows = rows.
Proof.
  induction 1 as [|r rows Hr _ IH]; [done|]. simpl. by rewrite Hr, IH.
Qed.

(** X15: the totals loop of the two earlier revisions is the present one
    run on the rows that have a county: rows whose county cell is null or
    undefined are skipped there, while the present loop sums them under the
    empty key.  When the county role is unassigned the earlier totals are
    empty. *)
Theorem earlier_totals_skip_missing (rows : list (list PrimitiveValue))
    (fipsIndex metricIndex : Z) :
  EarlierTotals.crashByFIPS StringToNumber rows fipsIndex metricIndex
  = crashByFIPS StringToNumber
      (List.filter (λ r, negb (isNullish (at_ r fipsIndex))) rows)
      fipsIndex metricIndex
  ∧ (fipsIndex < 0 →
     EarlierTotals.crashByFIPS StringToNumber rows fipsIndex metricIndex = ∅)
  ∧ (Forall (λ r, isNullish (at_ r fipsIndex) = false) rows →
     EarlierTotals.crashByFIPS StringToNumber rows fipsIndex metricIndex
     = crashByFIPS StringToNumber rows fipsIndex metricIndex).
Proof.
  assert (Hfold : ∀ totals,
    fold_left (EarlierTotals.aggregateRow StringToNumber fipsIndex metricIndex)
              rows totals
    = fold_left (aggregateRow StringToNumber fipsIndex metricIndex)
        (List.filter (λ r, negb (isNullish (at_ r fipsIndex))) rows) totals).
  { induction rows as [|r rows IH]; intros totals; [done|].
    simpl. unfold EarlierTotals.aggregateRow at 2.
    destruct (isNullish (at_ r fipsIndex)) eqn:Hnull; simpl; [apply IH|].
    rewrite IH. do 2 f_equal.
    unfold aggregateRow, regionKey, rowWeight, orEmpty. by rewrite Hnull. }
  assert (Hsame : EarlierTotals.crashByFIPS StringToNumber rows fipsIndex metricIndex
    = crashByFIPS StringToNumber
        (List.filter (λ r, negb (isNullish (at_ r fipsIndex))) rows)
        fipsIndex metricIndex) by apply Hfold.
  split; [done|]. split.
  - intros Hneg. by rewrite Hsame, rows_with_county_none.
  - intros Hall. by rewrite Hsame, rows_with_county_all.
Qed.

End Conservation.


(** ** The colour function of the points-layer revision *)

(** X16: the colour function of the points-layer revision has no
    transparent class: a value that is zero or negative gets the first
    colour, and any other value, NaN included, gets the colour the
    marker-cluster revision gives it. *)
Theorem points_layer_colour (value : number) :
  PointsLayerVariant.getColor value PointsLayerVariant.breaks
  = (if numLe value (Fin 0) then "#ffffcc"
     else MarkerClusterVariant.getColor value)
  ∧ PointsLayerVariant.getColor value PointsLayerVariant.breaks ≠ "rgba(0,0,0,0)".
Proof.
  assert (Heq : PointsLayerVariant.getColor value PointsLayerVariant.breaks
    = (if numLe value (Fin 0) then "#ffffcc"
       else MarkerClusterVariant.getColor value)).
  { unfold PointsLayerVariant.getColor, MarkerClusterVariant.getColor. simpl.
    destruct (numLe value (Fin 0)) eqn:H0; [|done].
    by rewrite (numLe_trans value (Fin 0) (Fin 50) H0). }
  split; [done|].
  unfold PointsLayerVariant.getColor.
  repeat match goal with |- context [if ?c then _ else _] => destruct c end;
    discriminate.
Qed.

(** ** The stored metric *)



(** ** Rows that are too short *)

(** X18: a row that has no cell at an index reads [undefined] there: it
    weighs 0, its county key is the empty string and its padded key is
    "00000"; and a row without a latitude or a longitude cell gets no
    marker. *)
Theorem short_row_reads_undefined (StringToNumber : string → number)
    (r : list PrimitiveValue) (i : Z) :
  i < 0 ∨ Z.of_nat (length r) ≤ i →
  at_ r i = VUndefined
  ∧ rowWeight StringToNumber r i = Fin 0
  ∧ regionKey r i = ""
  ∧ paddedKey r i = "00000"
  ∧ ∀ lonIdx crashIdx fipsIdx,
      markerOf StringToNumber i lonIdx crashIdx fipsIdx r = None
      ∧ markerOf StringToNumber lonIdx i crashIdx fipsIdx r = None.
Proof.
  intros Hi.
  assert (Hat : at_ r i = VUndefined).
  { unfold at_. destruct (i <? 0) eqn:Hneg; [done|].
    apply Z.ltb_ge in Hneg. apply nth_overflow. lia. }
  split; [done|].
  unfold rowWeight, regionKey, paddedKey, regionKey, markerOf. rewrite !Hat. simpl.
  repeat split. by rewrite orb_true_r.
Qed.

Lemma short_row_reads_undefined_witness :
  rowWeight Sample.StringToNumber [VNum (Fin 35); VNum (Fin (-79))] 2 = Fin 0.
Proof.
  refine (proj1 (proj2 (short_row_reads_undefined Sample.StringToNumber
                          [VNum (Fin 35); VNum (Fin (-79))] 2 _))).
  right. simpl. lia.
Defined.

(** ** The query of the rows-only revision *)

Lemma replaceFirstSpace_id (s : string) :
  hasWhiteSpace s = false → RowsOnlyVariant.replaceFirstSpace s = s.
Proof.
  induction s as [|c s IH]; simpl; [done|].
  intros [Hc Hs]%orb_false_iff. case_decide as Hsp.
  - subst c. discriminate.
  - by rewrite IH.
Qed.

Lemma VALID_ROUTES_clean (tok : string) :
  tok ∈ VALID_ROUTES → hasWhiteSpace tok = false ∧ tok ≠ "".
Proof.
  unfold VALID_ROUTES. rewrite !elem_of_cons, elem_of_nil.
  intros [->|[->|[->|[->|[->|[]]]]]]; done.
Qed.

(** X19: the rows-only revision compiles the text of every cell that is not
    null into its predicate, allowed or not.  On rows whose interstate cells
    are all allowed routes it gives the predicate the present revision gives
    without filters. *)
Theorem rows_only_query (rows : list (list PrimitiveValue)) (interstateIdx : Z) :
  (∀ row, row ∈ rows → isNullish (at_ row interstateIdx) = false →
          RowsOnlyVariant.replaceFirstSpace (toString (at_ row interstateIdx))
          ∈ RowsOnlyVariant.interstates rows interstateIdx)
  ∧ (0 ≤ interstateIdx →
     Forall (λ row, ∃ tok, at_ row interstateIdx = VStr tok ∧ tok ∈ VALID_ROUTES)
            rows →
     RowsOnlyVariant.whereOf rows interstateIdx
     = whereOf (selectedInterstates [] rows interstateIdx)).
Proof.
  split.
  - intros row Hrow Hnull. unfold RowsOnlyVariant.interstates.
    apply (fold_left_elem _
             (λ row x, isNullish (at_ row interstateIdx) = false
                       ∧ x = RowsOnlyVariant.replaceFirstSpace
                               (toString (at_ row interstateIdx)))).
    + intros sel a x. cbv zeta. destruct (isNullish (at_ a interstateIdx)).
      * split; [by left|]. by intros [?|[? _]].
      * rewrite setAdd_elem. split.
        -- intros [?| ->]; [by left|by right].
        -- intros [?|[_ ->]]; [by left|by right].
    + right. eauto.
  - intros Hidx Hall.
    assert (Hsame : ∀ sel,
      fold_left
        (λ sel row,
           let cell := at_ row interstateIdx in
           if isNullish cell then sel
           else setAdd (RowsOnlyVariant.replaceFirstSpace (toString cell)) sel)
        rows sel
      = selectedFromRows rows interstateIdx sel).
    { unfold selectedFromRows.
      induction Hall as [|row rows (tok & Hcell & Htok) _ IH]; intros sel; [done|].
      simpl. rewrite IH. f_equal. unfold rowInterstate. rewrite Hcell. simpl.
      destruct (VALID_ROUTES_clean tok Htok) as [Hclean Hne].
      rewrite (replaceFirstSpace_id tok Hclean).
      unfold trim. rewrite (trimStart_id tok Hclean), (trimEnd_id tok Hclean).
      by rewrite decide_False. }
    assert (Hvalid : Forall (λ tok, tok ∈ VALID_ROUTES)
                            (selectedFromRows rows interstateIdx [])).
    { apply Forall_forall. intros x [H|(row & Hrow & Hval & _)]%selectedFromRows_elem;
        [by apply elem_of_nil in H|].
      rewrite Forall_forall in Hall. destruct (Hall row Hrow) as (tok & Hcell & Htok).
      unfold rowInterstate in Hval. rewrite Hcell in Hval. simpl in Hval.
      injection Hval as <-.
      destruct (VALID_ROUTES_clean tok Htok) as [Hclean _].
      unfold trim. by rewrite (trimStart_id tok Hclean), (trimEnd_id tok Hclean). }
    assert (Hsel : selectedInterstates [] rows interstateIdx
                   = selectedFromRows rows interstateIdx []).
    { unfold selectedInterstates.
      replace (0 <=? interstateIdx) with true by (symmetry; by apply Z.leb_le).
      reflexivity. }
    unfold RowsOnlyVariant.whereOf, RowsOnlyVariant.interstates.
    rewrite Hsame, Hsel. unfold whereOf.
    by rewrite (safeInterstates_id _ Hvalid).
Qed.

Lemma rows_only_query_witness :
  RowsOnlyVariant.whereOf Sample.infiniteRows 4
  = whereOf (selectedInterstates [] Sample.infiniteRows 4).
Proof.
  apply (proj2 (rows_only_query Sample.infiniteRows 4)).
  - lia.
  - unfold Sample.infiniteRows.
    assert (Hrow : ∀ la lo w f,
              ∃ tok, at_ (Sample.row la lo w f "I-40") 4 = VStr tok
                     ∧ tok ∈ VALID_ROUTES).
    { intros. exists "I-40". split; [reflexivity|].
      apply elem_of_cons. right. apply elem_of_cons. by left. }
    apply List.Forall_cons; [apply Hrow|].
    apply List.Forall_cons; [apply Hrow|].
    apply List.Forall_cons; [apply Hrow|].
    apply List.Forall_nil.
Defined.

(** ** The further theorems on the sample data *)

Lemma undrawable_update_keeps_surface_witness :
  surfaceOf (Sample.update (Sample.optionsOf true [] [] "crashes") Sample.start)
  = surfaceOf Sample.start.
Proof.
  refine (proj1 (undrawable_update_keeps_surface Sample.StringToNumber
                   Sample.fipsToCounty (Sample.optionsOf true [] [] "crashes")
                   {| columns := Some (Sample.columnsOf true); rows := Some [] |}
                   Sample.start eq_refl eq_refl)).
Defined.

